(** * The control-and-dispatch core of the monitoring agent (src/main.c)

    A shallow embedding of [main.c]: the C-string helpers
    ([trim_whitespace], [strtok], [parse_metrics]), the status reporter
    ([update_status]), the dispatcher and monitoring loop
    ([start_metrics_monitoring]) and the named-pipe reader
    ([start_monitoring_from_fifo]), followed by the properties the
    specification states about them.

    C strings are values of [string] without the terminating NUL; arrays are
    lists read with [!!] and written with [<[i:=x]>] behind an explicit
    bounds check; the process is a function from the state of the files to
    an outcome, a new state and the list of the observable events. *)

From Stdlib Require Import ZArith NArith Ascii String.
From stdpp Require Import base option list strings pretty gmap.

Local Open Scope Z_scope.

(** ** Constants of [main.c] *)

Definition FIFO_PATH : string := "/tmp/monitor_fifo".
Definition BUFFER_SIZE : nat := 256.
Definition MAX_METRICS : nat := 10.
Definition STATUS_FILE : string := "/tmp/monitor_status".

Definition EXIT_FAILURE : Z := 1.

(** ** C strings *)

Module CString.

(** [isspace] of <ctype.h> in the "C" locale (the program never calls
    [setlocale]): space, and the control characters 9 to 13. *)
Definition isspace (c : ascii) : bool :=
  let n := N_of_ascii c in
  ((n =? 32) || ((9 <=? n) && (n <=? 13)))%N.

Definition NUL : ascii := ascii_of_N 0.

(** What a [char*] denotes when it points at these bytes: the bytes before
    the first NUL. *)
Fixpoint c_str (bytes : string) : string :=
  match bytes with
  | EmptyString => EmptyString
  | String c rest => if Ascii.eqb c NUL then EmptyString else String c (c_str rest)
  end.

Definition strdup (s : string) : string := c_str s.

Definition strlen (s : string) : nat := String.length s.

(** [strcmp]: only its sign matters; bytes compare as unsigned chars. *)
Definition strcmp (a b : string) : Z :=
  match String.compare a b with
  | Eq => 0
  | Lt => -1
  | Gt => 1
  end.

Definition is_delim (delim : string) (c : ascii) : bool :=
  existsb (Ascii.eqb c) (list_ascii_of_string delim).

(** [s += strspn(s, delim)] *)
Fixpoint skip_delims (delim s : string) : string :=
  match s with
  | EmptyString => EmptyString
  | String c rest => if is_delim delim c then skip_delims delim rest else s
  end.

(** The token that starts at [s], and where the scan resumes: after the
    delimiter that ended the token (overwritten with NUL), or at the
    terminator of the string. *)
Fixpoint split_token (delim s : string) : string * string :=
  match s with
  | EmptyString => (EmptyString, EmptyString)
  | String c rest =>
      if is_delim delim c then (EmptyString, rest)
      else let '(tok, saved) := split_token delim rest in (String c tok, saved)
  end.

(** [strtok]: the argument is the string to scan (the saved pointer of the
    previous call when C passes NULL); the result is the token, or [None]
    for NULL, and the new saved pointer. *)
Definition strtok (s delim : string) : option string * string :=
  match skip_delims delim s with
  | EmptyString => (None, EmptyString)
  | String c rest => let '(tok, saved) := split_token delim (String c rest) in (Some tok, saved)
  end.

(** [snprintf(buf, size, "%s%s%s", ...)]: at most [size - 1] bytes are
    stored before the terminator. *)
Definition snprintf (size : nat) (text : string) : string :=
  String.substring 0 (size - 1) text.

End CString.

Import CString.

(** ** [trim_whitespace] *)

(** [while (isspace((unsigned char)*str)) str++;] *)
Fixpoint skip_spaces (str : string) : string :=
  match str with
  | EmptyString => EmptyString
  | String c rest => if isspace c then skip_spaces rest else str
  end.

(** [while (end > str && isspace((unsigned char)*end)) end--;] with [end]
    kept as an offset from [str]. *)
Fixpoint scan_back (str : string) (e : nat) : nat :=
  match e with
  | O => O
  | S e' =>
      match String.get e str with
      | Some c => if isspace c then scan_back str e' else e
      | None => e
      end
  end.

Definition trim_whitespace (str : string) : string :=
  let str := skip_spaces str in
  match str with
  | EmptyString => str
  | String _ _ =>
      let e := (strlen str - 1)%nat in
      let e := scan_back str e in
      String.substring 0 (e + 1) str          (* end[1] = '\0' *)
  end.

(** ** Arrays *)

(** A C array whose slots may still be uninitialised ([None]). A store or a
    load outside the array, or a load of an uninitialised slot, has no
    defined behaviour: [None]. *)
Abbreviation array A := (list (option A)).

Definition uninitialised {A} (n : nat) : array A := replicate n None.

Definition array_store {A} (a : array A) (i : nat) (x : A) : option (array A) :=
  if decide (i < length a)%nat then Some (<[i := Some x]> a) else None.

Definition array_load {A} (a : array A) (i : nat) : option A :=
  match a !! i with
  | Some (Some x) => Some x
  | _ => None
  end.

(** ** [parse_metrics] *)

(** The [while (token != NULL && count < max_metrics)] loop. [n] is
    [max_metrics - count], the number of iterations the second conjunct still
    admits; [saved] is the pointer [strtok] keeps between calls. *)
Fixpoint parse_loop (n : nat) (token : option string) (saved : string)
    (count : nat) (output : array string) : option (nat * array string) :=
  match token, n with
  | Some token, S n' =>
      let trimmed_token := strdup token in
      match array_store output count (strdup (trim_whitespace trimmed_token)) with
      | None => None
      | Some output =>
          let '(token, saved) := strtok saved "," in
          parse_loop n' token saved (S count) output
      end
  | _, _ => Some (count, output)
  end.

(** Returns the count together with the array it filled. *)
Definition parse_metrics (input : string) (output : array string) (max_metrics : nat)
    : option (nat * array string) :=
  let count := O in
  let input_copy := strdup input in
  let '(token, saved) := strtok input_copy "," in
  parse_loop (max_metrics - count) token saved count output.

(** ** The registry (declared in metrics.h) *)

(** A collector routine is identified by a number; a function pointer is
    such a routine or NULL. *)
Definition update_fn := nat.
Abbreviation fnptr := (option update_fn).
Definition NULL : fnptr := None.

(** The two fields of [MetricInfo] that [main.c] reads. [all_metrics] is the
    table of these entries up to its terminator (the entry whose [name] is
    NULL); it is a parameter of the development. *)
Record MetricInfo := { name : string; update_function : fnptr }.

(** ** The process and its surroundings *)

Inductive errno_code := ENONE | EEXIST | EACCES | ENOENT | ENOSPC | EROFS.

Global Instance errno_code_eq_dec : EqDecision errno_code.
Proof. solve_decision. Defined.

Inductive node :=
| Fifo (mode : N)
| Regular (mode : N) (content : string).

Global Instance node_eq_dec : EqDecision node.
Proof. solve_decision. Defined.

(** What the process can observe of its surroundings and cannot decide. *)
Record environment := {
  umask : N;
  mkfifo_fault : option errno_code; (* mkfifo fails although no node is in the way *)
  fopen_fails : string -> bool;     (* fopen of this path returns NULL *)
  fifo_bytes : string;              (* what the writer of the pipe sends before closing *)
  pthread_create_fails : bool
}.

Record state := {
  files : gmap string node;
  streams : gset string;            (* the paths with an open stream *)
  errno : errno_code
}.

Definition set_files (f : gmap string node -> gmap string node) (s : state) : state :=
  {| files := f (files s); streams := streams s; errno := errno s |}.
Definition set_streams (f : gset string -> gset string) (s : state) : state :=
  {| files := files s; streams := f (streams s); errno := errno s |}.
Definition set_errno (e : errno_code) (s : state) : state :=
  {| files := files s; streams := streams s; errno := e |}.

Inductive event :=
| Stdout (text : string)
| Stderr (text : string)
| Perror (prefix : string) (e : errno_code)
| Mkfifo (path : string) (mode : N)
| Fopen (path mode : string)
| Fread (path : string) (bytes : nat)
| Fprintf (path text : string)
| Fclose (path : string)
| Unlink (path : string)
| PthreadCreate (started : bool)
| InitMetrics (names : list string)
| ShowAvailableMetrics
| Update (f : update_fn)
| Sleep (seconds : nat).

Global Instance event_eq_dec : EqDecision event.
Proof. solve_decision. Defined.

(** How a call ends: it returns; the process exits; the observation ran out
    of [fuel] inside [while (true)]; or the C program has no defined
    behaviour (a load or store outside an array). *)
Inductive outcome (A : Type) :=
| Returns (a : A)
| Exits (status : Z)
| StillRunning
| Undefined.
Arguments Returns {A} a.
Arguments Exits {A} status.
Arguments StillRunning {A}.
Arguments Undefined {A}.

Definition M (A : Type) : Type := state -> outcome A * state * list event.

Global Instance M_ret : MRet M := fun A a s => (Returns a, s, []).
Global Instance M_bind : MBind M := fun A B k m s =>
  match m s with
  | (Returns a, s', t) => let '(r, s'', t') := k a s' in (r, s'', t ++ t')
  | (Exits status, s', t) => (Exits status, s', t)
  | (StillRunning, s', t) => (StillRunning, s', t)
  | (Undefined, s', t) => (Undefined, s', t)
  end.

Definition emit (e : event) : M unit := fun s => (Returns tt, s, [e]).
Definition get_state : M state := fun s => (Returns s, s, []).
Definition modify (f : state -> state) : M unit := fun s => (Returns tt, f s, []).
Definition exit {A} (status : Z) : M A := fun s => (Exits status, s, []).
Definition still_running {A} : M A := fun s => (StillRunning, s, []).
Definition undefined {A} : M A := fun s => (Undefined, s, []).

Definition load {A} (a : array A) (i : nat) : M A :=
  match array_load a i with
  | Some x => mret x
  | None => undefined
  end.

Definition store {A} (a : array A) (i : nat) (x : A) : M (array A) :=
  match array_store a i x with
  | Some a' => mret a'
  | None => undefined
  end.

(** [for (size_t i = 0; i < n; i++) body(i);] for a body that neither
    breaks nor returns; [k] counts the iterations left. *)
Fixpoint for_from (k i : nat) (body : nat -> M unit) : M unit :=
  match k with
  | O => mret tt
  | S k' => body i;; for_from k' (S i) body
  end.
Definition for_loop (n : nat) (body : nat -> M unit) : M unit := for_from n 0%nat body.

Section Agent.

Variable all_metrics : list MetricInfo.   (* metrics.h *)
Variable SLEEP_TIME : nat.                (* metrics.h *)
Variable os : environment.

(** *** The system and library calls the program makes *)

(** The "\n" of the format strings. *)
Definition newline : string := String (ascii_of_N 10) EmptyString.

Definition printf (text : string) : M unit := emit (Stdout text).
Definition fprintf_stderr (text : string) : M unit := emit (Stderr text).

Definition perror (prefix : string) : M unit :=
  s ← get_state; emit (Perror prefix (errno s)).

(** [mkfifo]: fails with EEXIST when a node has the name, otherwise makes
    the pipe with the mode the umask leaves. Returns 0 or -1. *)
Definition mkfifo (path : string) (mode : N) : M Z :=
  emit (Mkfifo path mode);;
  s ← get_state;
  match mkfifo_fault os with
  | Some e => modify (set_errno e);; mret (-1)
  | None =>
      match files s !! path with
      | Some _ => modify (set_errno EEXIST);; mret (-1)
      | None => modify (set_files (insert path (Fifo (N.ldiff mode (umask os)))));; mret 0
      end
  end.

(** [fopen] of a path in mode "r" or "w"; [None] is the NULL stream. The
    stream is named by its path. Opening a pipe for reading waits for a
    writer; the model is of the runs in which one comes. *)
Definition fopen (path mode : string) : M (option string) :=
  emit (Fopen path mode);;
  s ← get_state;
  if fopen_fails os path then modify (set_errno EACCES);; mret None
  else if String.eqb mode "w" then
    match files s !! path with
    | Some (Fifo _) => modify (set_streams (union {[path]}));; mret (Some path)
    | Some (Regular m _) =>
        modify (set_files (insert path (Regular m "")));;
        modify (set_streams (union {[path]}));; mret (Some path)
    | None =>
        modify (set_files (insert path (Regular (N.ldiff 438 (umask os)) "")));;
        modify (set_streams (union {[path]}));; mret (Some path)
    end
  else
    match files s !! path with
    | Some _ => modify (set_streams (union {[path]}));; mret (Some path)
    | None => modify (set_errno ENOENT);; mret None
    end.

(** [fprintf(file, "%s", text)] on a stream opened with "w". *)
Definition fprintf (file text : string) : M unit :=
  emit (Fprintf file text);;
  s ← get_state;
  match files s !! file with
  | Some (Regular m content) => modify (set_files (insert file (Regular m (content +:+ text))))
  | _ => mret tt
  end.

Definition fclose (file : string) : M unit :=
  emit (Fclose file);; modify (set_streams (fun open => open ∖ {[file]})).

Definition unlink (path : string) : M unit :=
  emit (Unlink path);; modify (set_files (delete path)).

(** [fread(buffer, sizeof(char), n, file)], one call on a fresh stream:
    the bytes stored and their number. A read error stores nothing. *)
Definition fread (n : nat) (file : string) : M (nat * string) :=
  s ← get_state;
  let available :=
    match files s !! file with
    | Some (Fifo _) => fifo_bytes os
    | Some (Regular _ content) => content
    | None => EmptyString
    end in
  let bytes := String.substring 0 n available in
  emit (Fread file (String.length bytes));;
  mret (String.length bytes, bytes).

Definition pthread_create_expose_metrics : M Z :=
  emit (PthreadCreate (negb (pthread_create_fails os)));;
  mret (if pthread_create_fails os then 11 else 0).

Definition init_metrics (selected_metrics : array string) (num_metrics : nat) : M unit :=
  emit (InitMetrics (omap id (take num_metrics selected_metrics))).

Definition show_available_metrics : M unit := emit ShowAvailableMetrics.

Definition sleep (seconds : nat) : M unit := emit (Sleep seconds).

(** *** [update_status] *)

Definition update_status (status : string) : M unit :=
  file ← fopen STATUS_FILE "w";
  match file with
  | None => perror "fopen"                       (* return; *)
  | Some file =>
      fprintf file (status +:+ newline);;
      fclose file
  end.

(** *** [create_threads] *)

(** The function is [void]: the value of its [return EXIT_FAILURE;] goes
    nowhere, and the caller goes on. *)
Definition create_threads : M unit :=
  rc ← pthread_create_expose_metrics;
  if negb (rc =? 0) then
    fprintf_stderr ("Error creating HTTP server thread" +:+ newline);;
    update_status "Error creating HTTP server thread"
  else mret tt.

(** *** [start_metrics_monitoring] *)

(** The scan of the table: [current] is the value of [update_functions[i]]
    so far; the first entry with the name decides. *)
Fixpoint scan_registry (metric_name : string) (info : list MetricInfo) (current : fnptr) : fnptr :=
  match info with
  | [] => current
  | entry :: info' =>
      if strcmp metric_name (name entry) =? 0 then update_function entry   (* break *)
      else scan_registry metric_name info' current
  end.

Definition no_update_function_message (metric_name : string) : string :=
  snprintf BUFFER_SIZE ("Error: No update function found for metric '" +:+ metric_name +:+ "'").


(** The first [for] loop. [k] is [num_metrics - i]. The result is the
    filled array, or [None] when the function has returned from inside
    the loop. *)
Fixpoint resolve_from (k i : nat) (selected_metrics : array string)
    (update_functions : array fnptr) : M (option (array fnptr)) :=
  match k with
  | O => mret (Some update_functions)
  | S k' =>
      metric_name ← load selected_metrics i;
      update_functions ← store update_functions i NULL;
      printf ("Processing metric: '" +:+ metric_name +:+ "'" +:+ newline);;
      update_functions ← store update_functions i (scan_registry metric_name all_metrics NULL);
      f ← load update_functions i;
      match f with
      | None =>
          let status_message := no_update_function_message metric_name in
          update_status status_message;;
          fprintf_stderr (status_message +:+ newline);;
          fprintf_stderr ("Error: No update function found for metric '" +:+ metric_name +:+ "'" +:+ newline);;
          mret None                                   (* return; *)
      | Some _ => resolve_from k' (S i) selected_metrics update_functions
      end
  end.

(** One pass of the [for] loop inside [while (true)]. *)
Definition update_all (update_functions : array fnptr) (num_metrics : nat) : M unit :=
  for_loop num_metrics (fun i =>
    f ← load update_functions i;
    match f with
    | Some f => emit (Update f)
    | None => fprintf_stderr ("Error: update_functions[" +:+ pretty i +:+ "] is NULL" +:+ newline)
    end).

(** [while (true) { ...; sleep(SLEEP_TIME); }], observed for [fuel]
    iterations. It has no exit. *)
Fixpoint monitoring_loop (fuel : nat) (update_functions : array fnptr) (num_metrics : nat) : M unit :=
  match fuel with
  | O => still_running
  | S fuel' =>
      update_all update_functions num_metrics;;
      sleep SLEEP_TIME;;
      monitoring_loop fuel' update_functions num_metrics
  end.

Definition start_metrics_monitoring (fuel : nat) (selected_metrics : array string)
    (num_metrics : nat) : M unit :=
  init_metrics selected_metrics num_metrics;;
  create_threads;;
  let update_functions : array fnptr := uninitialised num_metrics in
  resolved ← resolve_from num_metrics 0 selected_metrics update_functions;
  match resolved with
  | None => mret tt
  | Some update_functions =>
      update_status "Metrics monitoring started";;
      monitoring_loop fuel update_functions num_metrics
  end.

(** *** [start_monitoring_from_fifo] *)

Definition start_monitoring_from_fifo (fuel : nat) : M unit :=
  rc ← mkfifo FIFO_PATH 438;                       (* 0666 *)
  s ← get_state;
  (if (rc =? -1) && negb (bool_decide (errno s = EEXIST))
   then perror "mkfifo";; exit EXIT_FAILURE
   else mret tt);;
  fifo_file ← fopen FIFO_PATH "r";
  match fifo_file with
  | None => perror "fopen";; exit EXIT_FAILURE
  | Some fifo_file =>
      '(bytesRead, buffer) ← fread (BUFFER_SIZE - 1) fifo_file;
      if bool_decide (0 < bytesRead)%nat then
        let selected_metrics : array string := uninitialised MAX_METRICS in
        match parse_metrics buffer selected_metrics MAX_METRICS with
        | None => undefined
        | Some (num_metrics, selected_metrics) =>
            first ← (if bool_decide (0 < num_metrics)%nat
                     then load selected_metrics 0 else mret EmptyString);
            if bool_decide (0 < num_metrics)%nat && (strcmp first "1" =? 0) then
              show_available_metrics;;
              fclose fifo_file;;
              unlink FIFO_PATH                   (* return; *)
            else
              (if bool_decide (0 < num_metrics)%nat
               then start_metrics_monitoring fuel selected_metrics num_metrics
               else mret tt);;
              fclose fifo_file;;
              unlink FIFO_PATH
        end
      else
        perror "fread";;
        fclose fifo_file;;
        unlink FIFO_PATH
  end.

End Agent.

(** ** Views used in the statements *)

(** The [parse_metrics] loop without its array: the tokens it stores, in
    the order it stores them. *)
Fixpoint strtok_iter (n : nat) (token : option string) (saved : string) : list string :=
  match token, n with
  | Some token, S n' =>
      strdup (trim_whitespace (strdup token))
        :: (let '(token, saved) := strtok saved "," in strtok_iter n' token saved)
  | _, _ => []
  end.

Definition tokenize (input : string) (max_metrics : nat) : list string :=
  let '(token, saved) := strtok (strdup input) "," in
  strtok_iter max_metrics token saved.

(** An array of [n] slots whose first slots hold [xs]. *)
Definition filled {A} (n : nat) (xs : list A) : array A :=
  (Some <$> xs) ++ replicate (n - length xs) None.

Definition all_chars (p : ascii -> bool) (s : string) : bool :=
  forallb p (list_ascii_of_string s).

(** Only whitespace. *)
Definition blank (s : string) : bool := all_chars isspace s.

(** A piece of a payload between two commas: no comma and no NUL in it. *)
Definition segment (s : string) : bool :=
  all_chars (fun c => negb (is_delim "," c) && negb (Ascii.eqb c NUL)) s.

(** Nothing to trim: empty, or whitespace neither at the front nor at the
    end. *)
Definition trimmed (s : string) : bool :=
  match String.get 0 s, String.get (String.length s - 1) s with
  | Some a, Some b => negb (isspace a) && negb (isspace b)
  | _, _ => true
  end.

Definition nonempty (s : string) : bool := negb (String.eqb s "").

(** A metric name as a payload carries it. *)
Definition metric_name_ok (s : string) : bool := nonempty s && segment s && trimmed s.

(** A name with whitespace around it. *)
Record padded := { lead : string; core : string; trail : string }.

Definition padded_text (p : padded) : string := lead p +:+ core p +:+ trail p.

Definition padded_ok (p : padded) : bool :=
  blank (lead p) && metric_name_ok (core p) && blank (trail p).

Definition join (segments : list string) : string := String.concat "," segments.

(** [needle] occurs in [text]. *)
Definition occurs (needle text : string) : bool :=
  match String.index 0 needle text with
  | Some _ => true
  | None => false
  end.

Definition is_update (e : event) : bool :=
  match e with
  | Update _ => true
  | _ => false
  end.

Definition nul_free (s : string) : bool := all_chars (fun c => negb (Ascii.eqb c NUL)) s.

(** The mode of the status file once it is written: its own if the file was
    there, else what the umask leaves of 0666. *)
Definition status_mode (os : environment) (s : state) : N :=
  match files s !! STATUS_FILE with
  | Some (Regular m _) => m
  | _ => N.ldiff 438 (umask os)
  end.

(** The lines [start_metrics_monitoring] prints for the names it takes up. *)
Definition processing (names : list string) : list event :=
  (fun metric_name => Stdout ("Processing metric: '" +:+ metric_name +:+ "'" +:+ newline)) <$> names.

(** The events of [n] passes of the monitoring loop over the routines [fs]. *)
Definition cycles (SLEEP_TIME : nat) (n : nat) (fs : list update_fn) : list event :=
  mjoin (replicate n ((Update <$> fs) ++ [Sleep SLEEP_TIME])).

(** The routine the registry holds for a name, in the words of the
    specification: the callback of the entry with that name. *)
Definition registered (all_metrics : list MetricInfo) (metric_name : string) : option update_fn :=
  match List.find (fun entry => String.eqb (name entry) metric_name) all_metrics with
  | Some entry => update_function entry
  | None => None
  end.

(** The bytes the one [fread] stores: what the writer sent (or what the
    file holds, if the name is a regular file), up to the room in the
    buffer. *)
Definition received (os : environment) (s : state) : string :=
  String.substring 0 (BUFFER_SIZE - 1)
    match files s !! FIFO_PATH with
    | Some (Regular _ content) => content
    | _ => fifo_bytes os
    end.

(** The state once the pipe is made, if it was not there, and open. *)
Definition opened (os : environment) (s : state) : state :=
  match files s !! FIFO_PATH with
  | Some _ =>
      {| files := files s; streams := {[FIFO_PATH]} ∪ streams s; errno := EEXIST |}
  | None =>
      {| files := <[FIFO_PATH := Fifo (N.ldiff 438 (umask os))]> (files s);
         streams := {[FIFO_PATH]} ∪ streams s; errno := errno s |}
  end.

(** The state once the stream is closed and the name removed. *)
Definition closed (s : state) : state :=
  {| files := delete FIFO_PATH (files s);
     streams := streams s ∖ {[FIFO_PATH]};
     errno := errno s |}.

Definition opening (os : environment) (s : state) : list event :=
  [Mkfifo FIFO_PATH 438; Fopen FIFO_PATH "r";
   Fread FIFO_PATH (String.length (received os s))].

Definition closing : list event := [Fclose FIFO_PATH; Unlink FIFO_PATH].

(** The pipe can be made or is there, and can be opened. *)
Definition channel_opens (os : environment) : bool :=
  bool_decide (mkfifo_fault os = None) && negb (fopen_fails os FIFO_PATH).

(** ** A small installation, for the examples *)

Module Example.

(** The registry of the specification's scenarios. *)
Definition registry : list MetricInfo :=
  [ {| name := "cpu"; update_function := Some 1%nat |};
    {| name := "memory"; update_function := Some 2%nat |} ].

(** Surroundings in which every call succeeds and the writer of the pipe
    sends [bytes]. *)
Definition quiet (bytes : string) : environment :=
  {| umask := 18; mkfifo_fault := None; fopen_fails := fun _ => false;
     fifo_bytes := bytes; pthread_create_fails := false |}.

(** The same, except that the thread cannot be created. *)
Definition no_thread (bytes : string) : environment :=
  {| umask := 18; mkfifo_fault := None; fopen_fails := fun _ => false;
     fifo_bytes := bytes; pthread_create_fails := true |}.

(** The same as [quiet], except that the status file cannot be opened. *)
Definition no_status (bytes : string) : environment :=
  {| umask := 18; mkfifo_fault := None;
     fopen_fails := fun path => String.eqb path STATUS_FILE;
     fifo_bytes := bytes; pthread_create_fails := false |}.

(** No pipe, no status file, nothing open. *)
Definition fresh : state := {| files := ∅; streams := ∅; errno := ENONE |}.

(** A state in which the pipe and an old status file are there. *)
Definition used : state :=
  {| files := <[FIFO_PATH := Fifo 420]> (<[STATUS_FILE := Regular 420 "old status"]> ∅);
     streams := ∅; errno := ENONE |}.

(** A name of 250 bytes: it fits the 255 bytes of a payload. *)
Definition long_name : string := string_of_list_ascii (replicate 250 "a"%char).

End Example.

(** The tokens a payload with these comma-separated segments stands for:
    the segments that are not empty, trimmed, up to the limit. *)
Definition payload_tokens (segments : list string) : list string :=
  take MAX_METRICS (trim_whitespace <$> List.filter nonempty segments).

(** ** Launching the servers *)

(** What [start_grafana], [start_prometheus] and [run_executable] ask of
    their surroundings. *)
Record launch_environment := {
  passwd_dir : option string;       (* pw_dir of getpwuid(getuid()); None: no entry *)
  HOME : option string;             (* getenv("HOME") *)
  system_status : string -> Z;      (* what system() returns for a command *)
  system_errno : errno_code         (* errno when it returns -1 *)
}.

(** What these functions do that can be seen: a command handed to
    [system], or a line on one of the streams. *)
Inductive launch_event :=
| System (command : string)
| Said (e : event).

(** [WEXITSTATUS] of <sys/wait.h>: [(status & 0xff00) >> 8]. *)
Definition WEXITSTATUS (status : Z) : Z := Z.shiftr (Z.land status 65280) 8.

Definition grafana_command (home_dir : string) : string :=
  home_dir +:+ "/grafana/bin/grafana server --config " +:+ home_dir
    +:+ "/grafana/conf/defaults.ini --homepath " +:+ home_dir +:+ "/grafana &".

Definition prometheus_config (home_dir : string) : string :=
  home_dir +:+ "/prometheus/prometheus.yml".

Definition prometheus_command (home_dir config_path : string) : string :=
  home_dir +:+ "/prometheus/prometheus --config.file=" +:+ config_path +:+ " &".

Section Launch.

Variable COMMAND_SIZE : nat.              (* a header of the repository *)
Variable RETURN_ERROR : Z.                (* a header of the repository *)
Variable env : launch_environment.

Definition get_home_directory : option string := passwd_dir env.

Definition start_grafana : list launch_event :=
  match get_home_directory with
  | None => [Said (Stderr ("Failed to retrieve home directory" +:+ newline))]   (* return; *)
  | Some home_dir =>
      let command := snprintf COMMAND_SIZE (grafana_command home_dir) in
      let ret := system_status env command in
      System command ::
        (if ret =? RETURN_ERROR
         then [Said (Stderr ("Failed to start Grafana" +:+ newline))]
         else [Said (Stdout ("Grafana started successfully" +:+ newline))])
  end.

Definition start_prometheus : list launch_event :=
  match HOME env with
  | None =>
      [Said (Stderr ("Error: HOME environment variable not set." +:+ newline))]   (* return; *)
  | Some home_dir =>
      let prometheus_config_path := snprintf COMMAND_SIZE (prometheus_config home_dir) in
      let command :=
        snprintf COMMAND_SIZE (prometheus_command home_dir prometheus_config_path) in
      [System command]                    (* the value of system() is dropped *)
  end.

(** The value returned, and what was seen on the way. *)
Definition run_executable (command : string) : Z * list launch_event :=
  let ret := system_status env command in
  if ret =? -1 then
    (-1, [System command; Said (Perror "system" (system_errno env))])
  else if negb (ret =? 0) then
    (-1, [System command;
          Said (Stderr ("Command failed with exit code "
                          +:+ pretty (WEXITSTATUS ret) +:+ newline))])
  else (0, [System command]).

End Launch.

(** ** More views *)

(** The pipe is there or can be made, and can be opened: [channel_opens],
    and also the case that [mkfifo] reports a node that is indeed there. *)
Definition channel_ready (os : environment) (s : state) : Prop :=
  fopen_fails os FIFO_PATH = false
  /\ (mkfifo_fault os = None
      \/ (mkfifo_fault os = Some EEXIST /\ is_Some (files s !! FIFO_PATH))).

(** What one pass of the monitoring loop shows for a table, slot by slot: the
    routine, or the complaint about a NULL slot. *)
Definition pass_events (table : list fnptr) : list event :=
  imap (fun i f =>
          match f with
          | Some f => Update f
          | None => Stderr ("Error: update_functions[" +:+ pretty i +:+ "] is NULL" +:+ newline)
          end) table.

(** A payload of [n] commas. *)
Definition commas (n : nat) : string := string_of_list_ascii (replicate n ","%char).

(** The complaint of the monitoring loop about a NULL slot, whatever the
    index. *)
Definition is_null_complaint (e : event) : bool :=
  match e with
  | Stderr text => String.prefix "Error: update_functions[" text
  | _ => false
  end.

(** A line on the diagnostic stream. *)
Definition is_said_stderr (e : launch_event) : bool :=
  match e with
  | Said (Stderr _) | Said (Perror _ _) => true
  | _ => false
  end.

Definition is_system (e : launch_event) : bool :=
  match e with
  | System _ => true
  | _ => false
  end.

(** ** Proof automation *)

(** Runs the calls of the program on the state at hand. *)
Ltac mrun :=
  cbv beta iota zeta delta
    [mbind mret M_bind M_ret emit get_state modify exit still_running undefined
     perror printf fprintf_stderr fopen fprintf fclose unlink fread mkfifo
     pthread_create_expose_metrics init_metrics show_available_metrics sleep
     update_status create_threads set_files set_streams set_errno];
  cbn [files streams errno app negb andb orb].

(** * Properties *)

(** ** Strings *)

Lemma string_app_cons c (a b : string) : String c a +:+ b = String c (a +:+ b).
Proof. done. Qed.

Lemma string_app_nil_r (s : string) : s +:+ "" = s.
Proof. induction s as [|c s IH]; [done|]. by rewrite string_app_cons, IH. Qed.

Lemma string_app_assoc (a b c : string) : (a +:+ b) +:+ c = a +:+ b +:+ c.
Proof. induction a as [|x a IH]; [done|]. by rewrite !string_app_cons, IH. Qed.

Lemma string_length_app (a b : string) :
  String.length (a +:+ b) = (String.length a + String.length b)%nat.
Proof. induction a as [|x a IH]; [done|]. rewrite string_app_cons. cbn. by rewrite IH. Qed.

Lemma all_chars_cons p c s : all_chars p (String c s) = p c && all_chars p s.
Proof. done. Qed.

Lemma all_chars_app p a b : all_chars p (a +:+ b) = all_chars p a && all_chars p b.
Proof.
  induction a as [|c a IH]; [done|].
  rewrite string_app_cons, !all_chars_cons, IH. by rewrite andb_assoc.
Qed.

Lemma all_chars_impl (p q : ascii -> bool) s :
  (forall c, p c = true -> q c = true) -> all_chars p s = true -> all_chars q s = true.
Proof.
  intros Hpq. induction s as [|c s IH]; [done|].
  rewrite !all_chars_cons. intros [Hc Hs]%andb_prop.
  by rewrite (Hpq c Hc), IH.
Qed.

Lemma all_chars_get p s n c : all_chars p s = true -> String.get n s = Some c -> p c = true.
Proof.
  revert n. induction s as [|x s IH]; intros n; [done|].
  rewrite all_chars_cons. intros [Hx Hs]%andb_prop.
  destruct n as [|n]; cbn; [by intros [= <-] | eauto].
Qed.

Lemma all_chars_substring p s n m :
  all_chars p s = true -> all_chars p (String.substring n m s) = true.
Proof.
  revert n m. induction s as [|x s IH]; intros n m Hs.
  - by destruct n, m.
  - rewrite all_chars_cons in Hs. apply andb_prop in Hs as [Hx Hs].
    destruct n as [|n], m as [|m]; cbn [String.substring]; auto.
    rewrite all_chars_cons, Hx. by apply IH.
Qed.

Lemma c_str_nul_free s : nul_free s = true -> c_str s = s.
Proof.
  unfold nul_free. induction s as [|c s IH]; [done|].
  rewrite all_chars_cons. intros [Hc%negb_true_iff Hs]%andb_prop.
  cbn [c_str]. by rewrite Hc, IH.
Qed.

Lemma segment_nul_free s : segment s = true -> nul_free s = true.
Proof. apply all_chars_impl. by intros c [_ ?]%andb_prop. Qed.

Lemma blank_segment s : blank s = true -> segment s = true.
Proof.
  apply all_chars_impl. intros c.
  destruct c as [[] [] [] [] [] [] [] []]; vm_compute; congruence.
Qed.

Lemma string_get_lt s n : (n < String.length s)%nat -> is_Some (String.get n s).
Proof.
  revert n. induction s as [|c s IH]; intros n Hn; cbn in *; [lia|].
  destruct n; [by eexists|]. apply IH. lia.
Qed.

Lemma string_get_app_l (a b : string) n :
  (n < String.length a)%nat -> String.get n (a +:+ b) = String.get n a.
Proof. intros. symmetry. by apply append_correct1. Qed.

Lemma string_get_app_r (a b : string) n :
  String.get (String.length a + n) (a +:+ b) = String.get n b.
Proof. rewrite (append_correct2 a b n). f_equal. lia. Qed.

Lemma substring_app_l (p r : string) : String.substring 0 (String.length p) (p +:+ r) = p.
Proof.
  induction p as [|c p IH].
  - by destruct r.
  - rewrite string_app_cons. cbn [String.length String.substring]. by rewrite IH.
Qed.

Lemma substring_full (s : string) : String.substring 0 (String.length s) s = s.
Proof.
  pose proof (substring_app_l s "") as H. by rewrite string_app_nil_r in H.
Qed.

(** *** [trim_whitespace] *)

Lemma skip_spaces_blank l s : blank l = true -> skip_spaces (l +:+ s) = skip_spaces s.
Proof.
  unfold blank. induction l as [|c l IH]; [done|].
  rewrite all_chars_cons, string_app_cons. intros [Hc Hl]%andb_prop.
  cbn. rewrite Hc. auto.
Qed.

Lemma skip_spaces_all_blank r : blank r = true -> skip_spaces r = "".
Proof. intros Hr. rewrite <- (string_app_nil_r r). by rewrite skip_spaces_blank. Qed.

Lemma scan_back_trailing (p r : string) b k :
  String.get (String.length p - 1) p = Some b -> isspace b = false ->
  blank r = true -> (k <= String.length r)%nat ->
  scan_back (p +:+ r) (String.length p - 1 + k) = (String.length p - 1)%nat.
Proof.
  intros Hb Hsp Hr. 
  assert (0 < String.length p)%nat as Hp by (destruct p; cbn in *; [done|lia]).
  induction k as [|k IH]; intros Hk.
  - rewrite Nat.add_0_r. destruct (String.length p - 1)%nat as [|e] eqn:He; [done|].
    cbn. rewrite string_get_app_l by lia. by rewrite Hb, Hsp.
  - replace (String.length p - 1 + S k)%nat with (S (String.length p - 1 + k)) by lia.
    cbn [scan_back].
    replace (S (String.length p - 1 + k)) with (String.length p + k)%nat by lia.
    rewrite string_get_app_r.
    destruct (string_get_lt r k) as [x Hx]; [lia|]. rewrite Hx.
    rewrite (all_chars_get _ _ _ _ Hr Hx). apply IH. lia.
Qed.

(** Whitespace around a trimmed text goes, the text stays. *)
Lemma trim_whitespace_padded (l c r : string) :
  blank l = true -> trimmed c = true -> blank r = true ->
  trim_whitespace (l +:+ c +:+ r) = c.
Proof.
  intros Hl Hc Hr. unfold trim_whitespace. rewrite skip_spaces_blank by done.
  destruct c as [|a c].
  - change ("" +:+ r) with r. by rewrite skip_spaces_all_blank.
  - unfold trimmed in Hc.
    destruct (string_get_lt (String a c) (String.length (String a c) - 1)) as [b Hb];
      [cbn; lia|].
    rewrite Hb in Hc. cbn [String.get] in Hc. apply andb_prop in Hc as [Ha Hb'].
    apply negb_true_iff in Ha, Hb'.
    rewrite string_app_cons. cbn [skip_spaces]. rewrite Ha.
    rewrite <- string_app_cons. unfold strlen. rewrite string_length_app.
    replace (String.length (String a c) + String.length r - 1)%nat
      with (String.length (String a c) - 1 + String.length r)%nat by (cbn; lia).
    rewrite (scan_back_trailing _ _ b) by (done || lia).
    replace (String.length (String a c) - 1 + 1)%nat with (String.length (String a c))
      by (cbn; lia).
    apply substring_app_l.
Qed.

Lemma trim_whitespace_blank r : blank r = true -> trim_whitespace r = "".
Proof. intros Hr. unfold trim_whitespace. by rewrite skip_spaces_all_blank. Qed.

Lemma skip_spaces_suffix s : exists n, skip_spaces s = String.substring n (String.length s - n) s /\ (n <= String.length s)%nat.
Proof.
  induction s as [|c s [n [IH Hn]]]; [by exists 0%nat|].
  cbn [skip_spaces]. destruct (isspace c).
  - exists (S n). cbn. split; [done|lia].
  - exists 0%nat. split; [|lia]. by rewrite Nat.sub_0_r, substring_full.
Qed.

(** Trimming keeps a substring, so it brings in neither a comma nor a NUL. *)
Lemma trim_whitespace_all_chars p s : all_chars p s = true -> all_chars p (trim_whitespace s) = true.
Proof.
  intros Hs. unfold trim_whitespace.
  destruct (skip_spaces_suffix s) as [n [-> _]].
  pose proof (all_chars_substring p s n (String.length s - n) Hs) as Hsub.
  destruct (String.substring n (String.length s - n) s); [done|].
  by apply all_chars_substring.
Qed.

(** *** [strtok] on a comma-separated text *)

Lemma segment_cons c x :
  segment (String c x) = true -> is_delim "," c = false /\ segment x = true.
Proof.
  unfold segment. rewrite all_chars_cons.
  intros [[Hc _]%andb_prop Hx]%andb_prop. by apply negb_true_iff in Hc.
Qed.

Lemma split_token_segment x s :
  segment x = true -> split_token "," (x +:+ String "," s) = (x, s).
Proof.
  induction x as [|c x IH]; [done|].
  intros [Hc Hx]%segment_cons. rewrite string_app_cons. cbn [split_token].
  by rewrite Hc, IH.
Qed.

Lemma split_token_segment_end x : segment x = true -> split_token "," x = (x, "").
Proof.
  induction x as [|c x IH]; [done|].
  intros [Hc Hx]%segment_cons. cbn [split_token]. by rewrite Hc, IH.
Qed.

Lemma join_cons x y ys : join (x :: y :: ys) = x +:+ String "," (join (y :: ys)).
Proof. done. Qed.

(** The first call of [strtok] on the joined segments: an empty segment is
    passed over with its comma, any other is the token. *)
Lemma strtok_join x xs :
  segment x = true ->
  strtok (join (x :: xs)) "," =
    if nonempty x then (Some x, join xs) else strtok (join xs) ",".
Proof.
  intros Hx. destruct x as [|c x].
  - destruct xs as [|y ys]; [done|]. by rewrite join_cons.
  - change (nonempty (String c x)) with true. cbv iota.
    destruct (segment_cons _ _ Hx) as [Hc _].
    destruct xs as [|y ys].
    + change (join [String c x]) with (String c x). unfold strtok.
      cbn [skip_delims]. rewrite Hc. by rewrite split_token_segment_end.
    + rewrite join_cons. unfold strtok. rewrite string_app_cons.
      cbn [skip_delims]. rewrite Hc, <- string_app_cons.
      by rewrite split_token_segment.
Qed.

Lemma segment_join segs :
  Forall (fun s => segment s = true) segs -> nul_free (join segs) = true.
Proof.
  induction 1 as [|x xs Hx _ IH]; [done|].
  destruct xs as [|y ys]; [by apply segment_nul_free|].
  rewrite join_cons. apply segment_nul_free in Hx. unfold nul_free in *.
  rewrite all_chars_app, all_chars_cons. by rewrite Hx, IH.
Qed.

Lemma strdup_segment s : segment s = true -> strdup s = s.
Proof. intros. by apply c_str_nul_free, segment_nul_free. Qed.

Lemma strdup_trim_segment s : segment s = true -> strdup (trim_whitespace (strdup s)) = trim_whitespace s.
Proof.
  intros Hs. rewrite (strdup_segment s Hs).
  by apply strdup_segment, trim_whitespace_all_chars.
Qed.

Lemma strtok_iter_join segs n :
  Forall (fun s => segment s = true) segs ->
  (let '(token, saved) := strtok (join segs) "," in strtok_iter n token saved)
  = take n (trim_whitespace <$> List.filter nonempty segs).
Proof.
  intros Hsegs. revert n. induction Hsegs as [|x xs Hx _ IH]; intros n.
  - by destruct n.
  - rewrite strtok_join by done. cbn [List.filter]. destruct (nonempty x); [|apply IH].
    destruct n as [|n]; [done|]. cbn [strtok_iter]. rewrite fmap_cons. cbn [take].
    by rewrite strdup_trim_segment, IH.
Qed.

(** The tokens of a payload: its non-empty segments, trimmed, up to the
    limit. *)
Lemma tokenize_join segs n :
  Forall (fun s => segment s = true) segs ->
  tokenize (join segs) n = take n (trim_whitespace <$> List.filter nonempty segs).
Proof.
  intros Hsegs. unfold tokenize, strdup.
  rewrite (c_str_nul_free _ (segment_join _ Hsegs)). by apply strtok_iter_join.
Qed.

Lemma strtok_iter_length n token saved : (length (strtok_iter n token saved) <= n)%nat.
Proof.
  revert token saved. induction n as [|n IH]; intros [tok|] saved; cbn; try lia.
  destruct (strtok saved ","). specialize (IH o s). lia.
Qed.

Lemma tokenize_length input n : (length (tokenize input n) <= n)%nat.
Proof. unfold tokenize. destruct (strtok _ _). apply strtok_iter_length. Qed.

(** *** The array that [parse_metrics] fills *)

Lemma parse_loop_array n token saved count (output : array string) :
  (count + n <= length output)%nat ->
  let l := strtok_iter n token saved in
  parse_loop n token saved count output
  = Some ((count + length l)%nat,
          take count output ++ (Some <$> l) ++ drop (count + length l) output).
Proof.
  revert token saved count output.
  induction n as [|n IH]; intros token saved count output Hlen; cbn zeta.
  - assert (strtok_iter 0 token saved = []) as -> by by destruct token.
    assert (parse_loop 0 token saved count output = Some (count, output)) as ->
      by by destruct token.
    cbn. by rewrite Nat.add_0_r, take_drop.
  - destruct token as [token|].
    2:{ cbn. by rewrite Nat.add_0_r, take_drop. }
    cbn [parse_loop strtok_iter]. unfold array_store.
    rewrite decide_True by lia.
    destruct (strtok saved ",") as [token' saved'].
    rewrite IH by (rewrite length_insert; lia).
    cbn [length]. f_equal. f_equal; [lia|].
    rewrite (take_S_r _ _ (Some (strdup (trim_whitespace (strdup token))))).
    2:{ apply list_lookup_insert_eq. lia. }
    rewrite take_insert_ge by lia. rewrite drop_insert_lt by lia.
    rewrite fmap_cons, <- app_assoc.
    replace (count + S (length (strtok_iter n token' saved')))%nat
      with (S count + length (strtok_iter n token' saved'))%nat by lia.
    done.
Qed.

Lemma parse_metrics_array input (output : array string) max_metrics :
  (max_metrics <= length output)%nat ->
  let l := tokenize input max_metrics in
  parse_metrics input output max_metrics
  = Some (length l, (Some <$> l) ++ drop (length l) output).
Proof.
  intros Hlen. unfold parse_metrics, tokenize. cbn zeta.
  destruct (strtok (strdup input) ",") as [token saved].
  rewrite Nat.sub_0_r, parse_loop_array by (cbn; lia). done.
Qed.

Lemma parse_metrics_filled input max_metrics :
  let l := tokenize input max_metrics in
  parse_metrics input (uninitialised max_metrics) max_metrics
  = Some (length l, filled max_metrics l).
Proof.
  cbn zeta. rewrite parse_metrics_array by (unfold uninitialised; by rewrite length_replicate).
  unfold filled, uninitialised. by rewrite drop_replicate.
Qed.

(** ** The process *)

Lemma run_bind {A B} (m : M A) (k : A -> M B) (s : state) :
  (m ≫= k) s =
    match m s with
    | (Returns a, s', t) => let '(r, s'', t') := k a s' in (r, s'', t ++ t')
    | (Exits status, s', t) => (Exits status, s', t)
    | (StillRunning, s', t) => (StillRunning, s', t)
    | (Undefined, s', t) => (Undefined, s', t)
    end.
Proof. done. Qed.

Lemma run_ret {A} (a : A) (s : state) : (mret a : M A) s = (Returns a, s, []).
Proof. done. Qed.

Lemma run_load {A} (a : array A) i x s :
  array_load a i = Some x -> load a i s = (Returns x, s, []).
Proof. unfold load. by intros ->. Qed.

Lemma run_store {A} (a : array A) i x s :
  (i < length a)%nat -> store a i x s = (Returns (<[i := Some x]> a), s, []).
Proof. intros Hi. unfold store, array_store. by rewrite decide_True. Qed.

Lemma array_load_insert {A} (a : array A) i x :
  (i < length a)%nat -> array_load (<[i := Some x]> a) i = Some x.
Proof. intros Hi. unfold array_load. by rewrite list_lookup_insert_eq. Qed.

Lemma array_load_filled {A} n (xs : list A) i x :
  xs !! i = Some x -> array_load (filled n xs) i = Some x.
Proof.
  intros Hx. unfold array_load, filled.
  rewrite lookup_app_l by (rewrite length_fmap; by eapply lookup_lt_Some).
  by rewrite list_lookup_fmap, Hx.
Qed.

Lemma paths_differ : STATUS_FILE <> FIFO_PATH.
Proof. done. Qed.

Lemma string_compare_refl s : String.compare s s = Eq.
Proof.
  pose proof (String.compare_antisym s s) as H.
  by destruct (String.compare s s).
Qed.

Lemma strcmp_eq a b : (strcmp a b =? 0) = String.eqb a b.
Proof.
  unfold strcmp. destruct (String.eqb_spec a b) as [->|Hne].
  - by rewrite string_compare_refl.
  - destruct (String.compare a b) eqn:Hc; [|done..].
    by apply String.compare_eq_iff in Hc.
Qed.

(** The scan of the table finds what the registry holds for the name. *)
Lemma scan_registry_registered all_metrics metric_name :
  scan_registry metric_name all_metrics NULL = registered all_metrics metric_name.
Proof.
  unfold registered. induction all_metrics as [|entry info IH]; [done|].
  cbn [scan_registry List.find]. rewrite strcmp_eq, String.eqb_sym.
  by destruct (String.eqb (name entry) metric_name).
Qed.

Section Runs.

Variable all_metrics : list MetricInfo.
Variable SLEEP_TIME : nat.
Variable os : environment.

(** *** [update_status] *)

Lemma update_status_failed status s :
  fopen_fails os STATUS_FILE = true ->
  update_status os status s
  = (Returns tt, set_errno EACCES s, [Fopen STATUS_FILE "w"; Perror "fopen" EACCES]).
Proof. intros Hf. mrun. rewrite Hf. by mrun. Qed.

Lemma update_status_written status s :
  fopen_fails os STATUS_FILE = false ->
  (forall m, files s !! STATUS_FILE <> Some (Fifo m)) ->
  update_status os status s
  = (Returns tt,
     {| files := <[STATUS_FILE := Regular (status_mode os s) (status +:+ newline)]> (files s);
        streams := ({[STATUS_FILE]} ∪ streams s) ∖ {[STATUS_FILE]};
        errno := errno s |},
     [Fopen STATUS_FILE "w"; Fprintf STATUS_FILE (status +:+ newline); Fclose STATUS_FILE]).
Proof.
  intros Hf Hnode. unfold status_mode. mrun. rewrite Hf.
  change (String.eqb "w" "w") with true. cbv iota.
  destruct (files s !! STATUS_FILE) as [[m|m c]|] eqn:Hs; mrun.
  - by destruct (Hnode m).
  - rewrite lookup_insert_eq. mrun. by rewrite insert_insert_eq.
  - rewrite lookup_insert_eq. mrun. by rewrite insert_insert_eq.
Qed.

(** Whatever happens to the status file, the call returns, runs no
    collector and leaves the pipe and its stream as they are. *)
Lemma update_status_frame status s :
  exists s' t,
    update_status os status s = (Returns tt, s', t)
    /\ files s' !! FIFO_PATH = files s !! FIFO_PATH
    /\ (FIFO_PATH ∈ streams s' <-> FIFO_PATH ∈ streams s)
    /\ forallb (fun e => negb (is_update e)) t = true.
Proof.
  mrun. destruct (fopen_fails os STATUS_FILE); mrun.
  { eexists _, _. split; [done|]. by mrun. }
  change (String.eqb "w" "w") with true. cbv iota.
  destruct (files s !! STATUS_FILE) as [[m|m c]|] eqn:Hs; mrun;
    rewrite ?lookup_insert_eq, ?Hs; mrun;
    (eexists _, _; split; [done|]); mrun;
    rewrite ?lookup_insert_ne by done; (split; [done|]); (split; [|done]);
    rewrite elem_of_difference, elem_of_union, !elem_of_singleton;
    pose proof paths_differ as Hd; intuition congruence.
Qed.

(** *** [create_threads] *)

Lemma create_threads_started s :
  pthread_create_fails os = false ->
  create_threads os s = (Returns tt, s, [PthreadCreate true]).
Proof. intros Hp. mrun. rewrite Hp. by mrun. Qed.

(** A failure to start the thread is reported and the call returns all the
    same. *)
Lemma create_threads_failed s :
  pthread_create_fails os = true ->
  exists s' t,
    update_status os "Error creating HTTP server thread" s = (Returns tt, s', t)
    /\ create_threads os s
       = (Returns tt, s',
          PthreadCreate false
            :: Stderr ("Error creating HTTP server thread" +:+ newline) :: t).
Proof.
  intros Hp. destruct (update_status_frame "Error creating HTTP server thread" s)
    as (s' & t & Hrun & _).
  exists s', t. split; [done|].
  cbv beta iota zeta delta
    [create_threads pthread_create_expose_metrics mbind M_bind mret M_ret emit fprintf_stderr].
  rewrite Hp. cbn [negb Z.eqb]. by rewrite Hrun.
Qed.

Lemma create_threads_frame s :
  exists s' t,
    create_threads os s = (Returns tt, s', t)
    /\ files s' !! FIFO_PATH = files s !! FIFO_PATH
    /\ (FIFO_PATH ∈ streams s' <-> FIFO_PATH ∈ streams s)
    /\ forallb (fun e => negb (is_update e)) t = true.
Proof.
  destruct (pthread_create_fails os) eqn:Hp.
  - destruct (create_threads_failed s Hp) as (s' & t & Hst & ->).
    destruct (update_status_frame "Error creating HTTP server thread" s)
      as (s'' & t'' & Hrun & Hfiles & Hstreams & Ht).
    rewrite Hst in Hrun. injection Hrun as <- <-.
    eexists _, _. split; [done|]. by cbn.
  - rewrite create_threads_started by done. eexists _, _. split; [done|]. by cbn.
Qed.

(** *** The first loop of [start_metrics_monitoring] *)

Local Abbreviation resolve tok := (scan_registry tok all_metrics NULL).

Lemma processing_app a b : processing (a ++ b) = processing a ++ processing b.
Proof. unfold processing. by rewrite fmap_app. Qed.

Lemma resolve_from_step k i (sel : array string) (uf : array fnptr) tok s :
  array_load sel i = Some tok -> (i < length uf)%nat ->
  resolve_from all_metrics os (S k) i sel uf s
  = match resolve tok with
    | Some f =>
        let '(r, s', t) :=
          resolve_from all_metrics os k (S i) sel (<[i := Some (Some f)]> uf) s in
        (r, s', processing [tok] ++ t)
    | None =>
        let '(r, s', t) := update_status os (no_update_function_message tok) s in
        match r with
        | Returns _ =>
            (Returns None, s',
             processing [tok] ++ t
               ++ [Stderr (no_update_function_message tok +:+ newline);
                   Stderr ("Error: No update function found for metric '" +:+ tok +:+ "'" +:+ newline)])
        | Exits status => (Exits status, s', processing [tok] ++ t)
        | StillRunning => (StillRunning, s', processing [tok] ++ t)
        | Undefined => (Undefined, s', processing [tok] ++ t)
        end
    end.
Proof.
  intros Hsel Hi. cbn [resolve_from].
  rewrite run_bind, (run_load _ _ _ _ Hsel).
  rewrite run_bind, run_store by done.
  rewrite run_bind. unfold printf at 1, emit at 1. 
  rewrite run_bind, run_store by (by rewrite length_insert).
  rewrite list_insert_insert_eq.
  rewrite run_bind, (run_load _ _ (resolve tok)) by (by apply array_load_insert).
  destruct (resolve tok) as [f|].
  - destruct (resolve_from _ _ _ _ _ _ _) as [[r s'] t]. done.
  - rewrite run_bind.
    by destruct (update_status os _ s) as [[[[]| | |] s'] t].
Qed.

Lemma resolve_from_ok toks fs :
  Forall2 (fun tok f => resolve tok = Some f) toks fs ->
  forall i (sel : array string) (uf : array fnptr) s,
  (forall j tok, toks !! j = Some tok -> array_load sel (i + j) = Some tok) ->
  (i + length toks <= length uf)%nat ->
  resolve_from all_metrics os (length toks) i sel uf s
  = (Returns (Some (take i uf ++ (Some ∘ Some <$> fs) ++ drop (i + length toks) uf)),
     s, processing toks).
Proof.
  induction 1 as [|tok f toks fs Hf _ IH]; intros i sel uf s Hsel Hlen.
  - cbn. by rewrite Nat.add_0_r, take_drop.
  - cbn [length] in *.
    rewrite (resolve_from_step _ _ _ _ tok)
      by ((rewrite <- (Nat.add_0_r i); by apply Hsel) || lia).
    rewrite Hf, IH.
    2:{ intros j t Hj. replace (S i + j)%nat with (i + S j)%nat by lia. by apply Hsel. }
    2:{ rewrite length_insert. lia. }
    rewrite (take_S_r _ _ (Some (Some f))) by (apply list_lookup_insert_eq; lia).
    rewrite take_insert_ge, drop_insert_lt by lia.
    rewrite fmap_cons, <- app_assoc.
    replace (i + S (length toks))%nat with (S i + length toks)%nat by lia.
    done.
Qed.

Lemma resolve_from_fail pre fs bad post :
  Forall2 (fun tok f => resolve tok = Some f) pre fs ->
  resolve bad = None ->
  forall i (sel : array string) (uf : array fnptr) s s' t,
  (forall j tok, (pre ++ bad :: post) !! j = Some tok -> array_load sel (i + j) = Some tok) ->
  (i + length (pre ++ bad :: post) <= length uf)%nat ->
  update_status os (no_update_function_message bad) s = (Returns tt, s', t) ->
  resolve_from all_metrics os (length (pre ++ bad :: post)) i sel uf s
  = (Returns None, s',
     processing (pre ++ [bad]) ++ t
       ++ [Stderr (no_update_function_message bad +:+ newline);
           Stderr ("Error: No update function found for metric '" +:+ bad +:+ "'" +:+ newline)]).
Proof.
  intros Hpre Hbad. induction Hpre as [|tok f pre fs Hf _ IH];
    intros i sel uf s s' t Hsel Hlen Hst.
  - cbn [app length] in *.
    rewrite (resolve_from_step _ _ _ _ bad)
      by ((rewrite <- (Nat.add_0_r i); by apply Hsel) || lia).
    by rewrite Hbad, Hst.
  - cbn [app length] in *.
    rewrite (resolve_from_step _ _ _ _ tok)
      by ((rewrite <- (Nat.add_0_r i); by apply Hsel) || lia).
    rewrite Hf. erewrite IH; [done| |by rewrite length_insert; lia|done].
    intros j t' Hj. replace (S i + j)%nat with (i + S j)%nat by lia. by apply Hsel.
Qed.

(** *** The monitoring loop *)

Lemma for_from_updates fs :
  forall i (uf : array fnptr) s,
  (forall j f, fs !! j = Some f -> array_load uf (i + j) = Some (Some f)) ->
  for_from (length fs) i (fun i =>
    f ← load uf i;
    match f with
    | Some f => emit (Update f)
    | None => fprintf_stderr ("Error: update_functions[" +:+ pretty i +:+ "] is NULL" +:+ newline)
    end) s
  = (Returns tt, s, Update <$> fs).
Proof.
  induction fs as [|f fs IH]; intros i uf s Huf; [done|].
  cbn [length for_from]. rewrite run_bind, run_bind.
  rewrite (run_load _ _ (Some f)) by (rewrite <- (Nat.add_0_r i); by apply Huf).
  unfold emit at 1. rewrite IH; [done|].
  intros j g Hj. replace (S i + j)%nat with (i + S j)%nat by lia. by apply Huf.
Qed.

Lemma array_load_table (fs : list update_fn) j f :
  fs !! j = Some f -> array_load (Some ∘ Some <$> fs) j = Some (Some f).
Proof. intros Hj. unfold array_load. by rewrite list_lookup_fmap, Hj. Qed.

(** Each pass runs the routines of the table in order and sleeps; the
    loop does nothing else and does not end. *)
Lemma monitoring_loop_run fuel (fs : list update_fn) s :
  monitoring_loop SLEEP_TIME fuel (Some ∘ Some <$> fs) (length fs) s
  = (StillRunning, s, cycles SLEEP_TIME fuel fs).
Proof.
  induction fuel as [|fuel IH]; [done|].
  cbn [monitoring_loop]. unfold update_all, for_loop.
  rewrite run_bind, for_from_updates by (intros j f; apply array_load_table).
  rewrite run_bind. unfold sleep at 1, emit at 1. rewrite IH.
  unfold cycles. cbn [replicate mjoin list_join]. by rewrite <- !app_assoc.
Qed.

(** *** [start_metrics_monitoring] *)

Lemma take_filled {A} n (xs : list A) : omap id (take (length xs) (filled n xs)) = xs.
Proof.
  unfold filled. rewrite take_app_length' by by rewrite length_fmap.
  induction xs as [|x xs IH]; [done|]. cbn. by rewrite IH.
Qed.

Lemma start_metrics_monitoring_started fuel n toks fs s s1 t1 s2 t2 :
  Forall2 (fun tok f => resolve tok = Some f) toks fs ->
  create_threads os s = (Returns tt, s1, t1) ->
  update_status os "Metrics monitoring started" s1 = (Returns tt, s2, t2) ->
  start_metrics_monitoring all_metrics SLEEP_TIME os fuel (filled n toks) (length toks) s
  = (StillRunning, s2,
     InitMetrics toks :: t1 ++ processing toks ++ t2 ++ cycles SLEEP_TIME fuel fs).
Proof.
  intros Hfs Hct Hst. unfold start_metrics_monitoring.
  rewrite run_bind. unfold init_metrics at 1, emit at 1. rewrite take_filled.
  rewrite run_bind, Hct, run_bind.
  rewrite (resolve_from_ok toks fs Hfs)
    by (try (intros j tok Hj; by apply array_load_filled);
        unfold uninitialised; rewrite length_replicate; lia).
  unfold uninitialised. rewrite drop_replicate, Nat.sub_diag, take_0.
  cbn [replicate app]. rewrite app_nil_r, run_bind, Hst.
  by rewrite (Forall2_length _ _ _ Hfs), monitoring_loop_run.
Qed.

Lemma start_metrics_monitoring_rejected fuel n pre fs bad post s s1 t1 s2 t2 :
  Forall2 (fun tok f => resolve tok = Some f) pre fs ->
  resolve bad = None ->
  create_threads os s = (Returns tt, s1, t1) ->
  update_status os (no_update_function_message bad) s1 = (Returns tt, s2, t2) ->
  start_metrics_monitoring all_metrics SLEEP_TIME os fuel
    (filled n (pre ++ bad :: post)) (length (pre ++ bad :: post)) s
  = (Returns tt, s2,
     InitMetrics (pre ++ bad :: post) :: t1 ++ processing (pre ++ [bad]) ++ t2
       ++ [Stderr (no_update_function_message bad +:+ newline);
           Stderr ("Error: No update function found for metric '" +:+ bad +:+ "'" +:+ newline)]).
Proof.
  intros Hfs Hbad Hct Hst. unfold start_metrics_monitoring.
  rewrite run_bind. unfold init_metrics at 1, emit at 1. rewrite take_filled.
  rewrite run_bind, Hct, run_bind.
  rewrite (resolve_from_fail pre fs bad post Hfs Hbad 0%nat _ _ s1 s2 t2);
    [| intros j tok Hj; by apply array_load_filled
     | unfold uninitialised; rewrite length_replicate; lia
     | done].
  rewrite run_ret. cbn [app]. by rewrite app_nil_r.
Qed.

(** *** [start_monitoring_from_fifo] *)

Lemma channel_opens_inv :
  channel_opens os = true -> mkfifo_fault os = None /\ fopen_fails os FIFO_PATH = false.
Proof.
  unfold channel_opens. intros [H1%bool_decide_eq_true H2%negb_true_iff]%andb_prop. done.
Qed.

(** Making and opening the pipe, whatever follows. *)
Lemma open_channel_run (K : option string -> M unit) s :
  channel_opens os = true ->
  (rc ← mkfifo os FIFO_PATH 438;
   s ← get_state;
   (if (rc =? -1) && negb (bool_decide (errno s = EEXIST))
    then perror "mkfifo";; exit EXIT_FAILURE
    else mret tt);;
   fifo_file ← fopen os FIFO_PATH "r";
   K fifo_file) s
  = let '(r, s', t) := K (Some FIFO_PATH) (opened os s) in
    (r, s', Mkfifo FIFO_PATH 438 :: Fopen FIFO_PATH "r" :: t).
Proof.
  intros [Hm Hf]%channel_opens_inv. unfold opened. mrun. rewrite Hm, Hf.
  change (String.eqb "r" "w") with false. cbv iota.
  destruct (files s !! FIFO_PATH) as [n|] eqn:Hn; mrun.
  - rewrite bool_decide_eq_true_2 by done. cbn [Z.eqb Pos.eqb andb negb]. mrun.
    rewrite Hn. by destruct (K _ _) as [[r s'] t].
  - change (0 =? -1) with false. mrun. rewrite lookup_insert_eq.
    by destruct (K _ _) as [[r s'] t].
Qed.

Lemma received_opened s :
  String.substring 0 (BUFFER_SIZE - 1)
    match files (opened os s) !! FIFO_PATH with
    | Some (Fifo _) => fifo_bytes os
    | Some (Regular _ content) => content
    | None => EmptyString
    end
  = received os s.
Proof.
  unfold received, opened.
  destruct (files s !! FIFO_PATH) as [[m|m c]|] eqn:Hn; cbn [files]; rewrite ?Hn; try done.
  by rewrite lookup_insert_eq.
Qed.

(** What the reader does with the tokens it parsed. *)
Lemma start_monitoring_from_fifo_run fuel s :
  channel_opens os = true ->
  start_monitoring_from_fifo all_metrics SLEEP_TIME os fuel s
  = let toks := tokenize (received os s) MAX_METRICS in
    if bool_decide (0 < String.length (received os s))%nat then
      match toks with
      | [] => (Returns tt, closed (opened os s), opening os s ++ closing)
      | first :: _ =>
          if String.eqb first "1" then
            (Returns tt, closed (opened os s),
             opening os s ++ ShowAvailableMetrics :: closing)
          else
            match start_metrics_monitoring all_metrics SLEEP_TIME os fuel
                    (filled MAX_METRICS toks) (length toks) (opened os s) with
            | (Returns _, s', t) => (Returns tt, closed s', opening os s ++ t ++ closing)
            | (r, s', t) => (r, s', opening os s ++ t)
            end
      end
    else
      (Returns tt, closed (opened os s),
       opening os s ++ Perror "fread" (errno (opened os s)) :: closing).
Proof.
  intros Hopen. cbn zeta. unfold start_monitoring_from_fifo.
  rewrite open_channel_run by done. cbv beta iota.
  rewrite run_bind. unfold fread at 1. rewrite run_bind. unfold get_state at 1.
  rewrite run_bind. unfold emit at 1. rewrite run_ret, received_opened.
  cbn [app]. unfold opening.
  destruct (bool_decide (0 < String.length (received os s))%nat) eqn:Hlen.
  2:{ rewrite run_bind. unfold perror at 1. rewrite run_bind.
      unfold get_state at 1, emit at 1. done. }
  rewrite parse_metrics_filled.
  destruct (tokenize (received os s) MAX_METRICS) as [|first toks] eqn:Htoks.
  { cbn [length]. rewrite bool_decide_eq_false_2 by lia. cbn [andb].
    rewrite !run_bind, !run_ret. done. }
  cbn [length]. rewrite !(bool_decide_eq_true_2 (0 < S _)%nat) by lia.
  rewrite run_bind, (run_load _ _ first) by by apply array_load_filled.
  cbn [andb]. rewrite strcmp_eq.
  destruct (String.eqb first "1").
  { rewrite run_bind. unfold show_available_metrics at 1, emit at 1. done. }
  rewrite run_bind.
  by destruct (start_metrics_monitoring _ _ _ _ _ _ _) as [[[[]| | |] s'] t].
Qed.

(** *** Dispatch as a whole *)

(** Either every name resolves, or there is a first one that does not. *)
Lemma resolve_all_or_first_unresolved (toks : list string) :
  (exists fs, Forall2 (fun tok f => resolve tok = Some f) toks fs)
  \/ (exists pre fs bad post,
        toks = pre ++ bad :: post
        /\ Forall2 (fun tok f => resolve tok = Some f) pre fs
        /\ resolve bad = None).
Proof.
  induction toks as [|tok toks IH].
  - left. by exists [].
  - destruct (resolve tok) as [f|] eqn:Hf.
    + destruct IH as [[fs Hfs]|(pre & fs & bad & post & -> & Hpre & Hbad)].
      * left. exists (f :: fs). by constructor.
      * right. exists (tok :: pre), (f :: fs), bad, post. repeat split; [|done].
        by constructor.
    + right. exists [], [], tok, toks. by repeat split.
Qed.

Lemma first_unresolved (toks : list string) bad :
  bad ∈ toks -> resolve bad = None ->
  exists pre fs bad' post,
    toks = pre ++ bad' :: post
    /\ Forall2 (fun tok f => resolve tok = Some f) pre fs
    /\ resolve bad' = None.
Proof.
  intros Hin Hbad.
  destruct (resolve_all_or_first_unresolved toks) as [[fs Hfs]|?]; [|done].
  apply list_elem_of_lookup in Hin as [i Hi].
  destruct (Forall2_lookup_l _ _ _ _ _ Hfs Hi) as (f & _ & Hf). congruence.
Qed.

Lemma processing_no_update names :
  forallb (fun e => negb (is_update e)) (processing names) = true.
Proof. by induction names as [|x names IH]. Qed.

(** A name that does not resolve stops the dispatch before any routine has
    run: the call returns, for every [fuel]. *)
Lemma start_metrics_monitoring_fails_closed fuel n (toks : list string) bad s :
  bad ∈ toks -> resolve bad = None ->
  exists s' t,
    start_metrics_monitoring all_metrics SLEEP_TIME os fuel (filled n toks) (length toks) s
    = (Returns tt, s', t)
    /\ forallb (fun e => negb (is_update e)) t = true
    /\ files s' !! FIFO_PATH = files s !! FIFO_PATH
    /\ (FIFO_PATH ∈ streams s' <-> FIFO_PATH ∈ streams s).
Proof.
  intros Hin Hbad.
  destruct (first_unresolved toks bad Hin Hbad) as (pre & fs & bad' & post & -> & Hpre & Hbad').
  destruct (create_threads_frame s) as (s1 & t1 & Hct & Hf1 & Hs1 & Ht1).
  destruct (update_status_frame (no_update_function_message bad') s1)
    as (s2 & t2 & Hst & Hf2 & Hs2 & Ht2).
  eexists s2, _. split.
  { by apply (start_metrics_monitoring_rejected fuel n pre fs bad' post s s1 t1 s2 t2). }
  split; [|split; [congruence|by etrans]].
  cbn [forallb is_update negb andb].
  by rewrite !forallb_app, Ht1, Ht2, processing_no_update.
Qed.

(** The call never ends the process: it returns or it is in the loop. *)
Lemma start_metrics_monitoring_outcome fuel n (toks : list string) s :
  exists r s' t,
    start_metrics_monitoring all_metrics SLEEP_TIME os fuel (filled n toks) (length toks) s
    = (r, s', t)
    /\ (r = Returns tt \/ r = StillRunning).
Proof.
  destruct (resolve_all_or_first_unresolved toks)
    as [[fs Hfs]|(pre & fs & bad & post & -> & Hpre & Hbad)].
  - destruct (create_threads_frame s) as (s1 & t1 & Hct & _).
    destruct (update_status_frame "Metrics monitoring started" s1) as (s2 & t2 & Hst & _).
    eexists _, _, _. split; [|by right].
    by apply (start_metrics_monitoring_started fuel n toks fs s s1 t1 s2 t2).
  - destruct (start_metrics_monitoring_fails_closed fuel n (pre ++ bad :: post) bad s)
      as (s' & t & Hrun & _); [set_solver|done|].
    eexists _, _, _. split; [done|by left].
Qed.

End Runs.

Lemma substring_short (s : string) n :
  (String.length s <= n)%nat -> String.substring 0 n s = s.
Proof.
  revert n. induction s as [|c s IH]; intros n Hn.
  - by destruct n.
  - destruct n as [|n]; cbn in *; [lia|]. rewrite IH; [done|lia].
Qed.

Lemma string_length_zero (s : string) : String.length s = 0%nat -> s = "".
Proof. by destruct s. Qed.

Lemma tokenize_nil n : tokenize "" n = [].
Proof. by destruct n. Qed.

Lemma take_fmap_all {A B} (f : A -> B) (xs : list A) n :
  (length xs <= n)%nat -> take n (f <$> xs) = f <$> xs.
Proof. intros. apply take_ge. by rewrite length_fmap. Qed.

(** * The claims of the specification *)

(** ** Parsing *)

Lemma nonempty_app (a b c : string) : nonempty b = true -> nonempty (a +:+ b +:+ c) = true.
Proof.
  destruct b as [|x b]; [done|]. intros _.
  destruct a as [|y a]; [done|done].
Qed.

Lemma padded_ok_inv p :
  padded_ok p = true ->
  blank (lead p) = true /\ blank (trail p) = true /\ nonempty (core p) = true
  /\ segment (core p) = true /\ trimmed (core p) = true.
Proof.
  unfold padded_ok, metric_name_ok.
  intros [[Hl [[Hn Hs]%andb_prop Ht]%andb_prop]%andb_prop Hr]%andb_prop. done.
Qed.

Lemma padded_segment p : padded_ok p = true -> segment (padded_text p) = true.
Proof.
  intros (Hl%blank_segment & Hr%blank_segment & _ & Hs & _)%padded_ok_inv.
  unfold padded_text, segment in *. by rewrite !all_chars_app, Hs, Hl, Hr.
Qed.

Lemma padded_tokens (ps : list padded) :
  Forall (fun p => padded_ok p = true) ps ->
  trim_whitespace <$> List.filter nonempty (padded_text <$> ps) = core <$> ps.
Proof.
  induction 1 as [|p ps Hp _ IH]; [done|].
  pose proof (padded_ok_inv p Hp) as (Hl & Hr & Hn & Hs & Ht).
  rewrite !fmap_cons. cbn [List.filter].
  assert (nonempty (padded_text p) = true) as ->
    by (unfold padded_text; by apply nonempty_app).
  rewrite fmap_cons, IH. unfold padded_text. by rewrite trim_whitespace_padded.
Qed.

(** C4. A payload of at most ten names, each with any whitespace around it
    and commas between them, parses to exactly these names, in their order
    and without the whitespace: [parse_metrics] returns their number and
    has stored them in the first slots of the array. *)
Theorem C4_parse_metrics_well_formed (ps : list padded) :
  Forall (fun p => padded_ok p = true) ps ->
  (length ps <= MAX_METRICS)%nat ->
  parse_metrics (join (padded_text <$> ps)) (uninitialised MAX_METRICS) MAX_METRICS
  = Some (length ps, filled MAX_METRICS (core <$> ps)).
Proof.
  intros Hps Hlen. rewrite parse_metrics_filled.
  rewrite tokenize_join by (apply Forall_fmap; eapply Forall_impl; [done|apply padded_segment]).
  rewrite padded_tokens by done.
  rewrite take_fmap_all by done. by rewrite length_fmap.
Qed.

(** The example of the specification: [" cpu, memory ,disk"]. *)
Lemma C4_parse_metrics_example :
  parse_metrics " cpu, memory ,disk" (uninitialised MAX_METRICS) MAX_METRICS
  = Some (3%nat, filled MAX_METRICS ["cpu"; "memory"; "disk"]).
Proof.
  apply (C4_parse_metrics_well_formed
           [ {| lead := " "; core := "cpu"; trail := "" |};
             {| lead := " "; core := "memory"; trail := " " |};
             {| lead := ""; core := "disk"; trail := "" |} ]).
  - repeat constructor.
  - unfold MAX_METRICS. cbn. lia.
Defined.

Lemma parse_metrics_payload segs :
  Forall (fun seg => segment seg = true) segs ->
  parse_metrics (join segs) (uninitialised MAX_METRICS) MAX_METRICS
  = Some (length (payload_tokens segs), filled MAX_METRICS (payload_tokens segs)).
Proof. intros Hsegs. by rewrite parse_metrics_filled, tokenize_join. Qed.

Lemma received_nonempty os s segs :
  received os s = join segs ->
  Forall (fun seg => segment seg = true) segs ->
  payload_tokens segs <> [] ->
  bool_decide (0 < String.length (received os s))%nat = true.
Proof.
  intros Hrec Hsegs Htoks. apply bool_decide_eq_true_2.
  destruct (String.length (received os s)) eqn:Hlen; [|lia].
  apply string_length_zero in Hlen. destruct Htoks.
  unfold payload_tokens. rewrite <- tokenize_join, <- Hrec, Hlen by done.
  apply tokenize_nil.
Qed.

(** C9. [parse_metrics] never stores more than [max_metrics] tokens: for
    every input, and every array with that many slots, it returns a count of
    at most [max_metrics] (ten, as the reader calls it) and has written only
    the first count slots of the array. When the payload has more than ten
    non-empty segments, the ones after the tenth are dropped without a word:
    the reader goes on to [start_metrics_monitoring] with the first ten
    tokens, and nothing but the opening of the pipe precedes that call. *)
Theorem C9_parse_metrics_at_most_ten all_metrics SLEEP_TIME os fuel s (segs : list string) :
  channel_opens os = true ->
  received os s = join segs ->
  Forall (fun seg => segment seg = true) segs ->
  (MAX_METRICS < length (List.filter nonempty segs))%nat ->
  head (payload_tokens segs) <> Some "1" ->
  (forall input (output : array string) max_metrics,
     (max_metrics <= length output)%nat ->
     exists tokens : list string,
       (length tokens <= max_metrics)%nat
       /\ parse_metrics input output max_metrics
          = Some (length tokens, (Some <$> tokens) ++ drop (length tokens) output))
  /\ length (payload_tokens segs) = MAX_METRICS
  /\ parse_metrics (join segs) (uninitialised MAX_METRICS) MAX_METRICS
     = Some (MAX_METRICS, Some <$> payload_tokens segs)
  /\ start_monitoring_from_fifo all_metrics SLEEP_TIME os fuel s
     = match start_metrics_monitoring all_metrics SLEEP_TIME os fuel
               (Some <$> payload_tokens segs) MAX_METRICS (opened os s) with
       | (Returns _, s', t) => (Returns tt, closed s', opening os s ++ t ++ closing)
       | (r, s', t) => (r, s', opening os s ++ t)
       end.
Proof.
  intros Hopen Hrec Hsegs Hmany Hfirst.
  assert (length (payload_tokens segs) = MAX_METRICS) as Hlen.
  { unfold payload_tokens. rewrite length_take, length_fmap. lia. }
  assert (filled MAX_METRICS (payload_tokens segs) = Some <$> payload_tokens segs) as Hfilled.
  { unfold filled. rewrite Hlen, Nat.sub_diag. apply app_nil_r. }
  split; [|split; [done|split]].
  - intros input output max_metrics Hout. exists (tokenize input max_metrics).
    split; [apply tokenize_length|]. by apply parse_metrics_array.
  - rewrite parse_metrics_payload by done. by rewrite Hlen, Hfilled.
  - rewrite start_monitoring_from_fifo_run by done. cbn zeta.
    rewrite (received_nonempty os s segs) by (done || by intros Hnil; rewrite Hnil in Hlen).
    rewrite Hrec, tokenize_join by done. fold (payload_tokens segs).
    rewrite Hfilled, Hlen.
    destruct (payload_tokens segs) as [|first rest]; [done|].
    destruct (String.eqb_spec first "1") as [->|_]; [by destruct Hfirst|done].
Qed.

(** Twelve names: the tenth is the last one kept. *)
Lemma C9_twelve_names :
  parse_metrics "a,b,c,d,e,f,g,h,i,j,k,l" (uninitialised MAX_METRICS) MAX_METRICS
  = Some (10%nat, Some <$> ["a"; "b"; "c"; "d"; "e"; "f"; "g"; "h"; "i"; "j"]).
Proof.
  exact (proj1 (proj2 (proj2
    (C9_parse_metrics_at_most_ten Example.registry 1
       (Example.quiet "a,b,c,d,e,f,g,h,i,j,k,l") 1 Example.fresh
       ["a"; "b"; "c"; "d"; "e"; "f"; "g"; "h"; "i"; "j"; "k"; "l"]
       eq_refl eq_refl ltac:(repeat constructor)
       ltac:(unfold MAX_METRICS; cbn; lia) ltac:(by vm_compute))))).
Defined.

(** C10. An empty segment gives no token and a segment of whitespace gives
    the empty token, at its place among the others; if the registry holds
    nothing under the empty name, a payload with such a token is not
    dispatched: the call returns and no collector has run. *)
Theorem C10_empty_and_blank_segments all_metrics SLEEP_TIME os fuel s (segs : list string) :
  Forall (fun seg => segment seg = true) segs ->
  registered all_metrics "" = None ->
  parse_metrics (join segs) (uninitialised MAX_METRICS) MAX_METRICS
  = Some (length (payload_tokens segs), filled MAX_METRICS (payload_tokens segs))
  /\ Forall (fun seg => seg <> "") (List.filter nonempty segs)
  /\ (forall i seg,
        List.filter nonempty segs !! i = Some seg -> (i < MAX_METRICS)%nat ->
        blank seg = true -> payload_tokens segs !! i = Some "")
  /\ ("" ∈ payload_tokens segs ->
      exists s' t,
        start_metrics_monitoring all_metrics SLEEP_TIME os fuel
          (filled MAX_METRICS (payload_tokens segs)) (length (payload_tokens segs)) s
        = (Returns tt, s', t)
        /\ forallb (fun e => negb (is_update e)) t = true).
Proof.
  intros Hsegs Hreg. split; [by apply parse_metrics_payload|split; [|split]].
  - apply Forall_forall. intros seg Hin%list_elem_of_In.
    apply filter_In in Hin as [_ Hne]. by intros ->.
  - intros i seg Hi Hlt Hblank. unfold payload_tokens.
    rewrite lookup_take_lt by done. rewrite list_lookup_fmap, Hi. cbn.
    by rewrite trim_whitespace_blank.
  - intros Hin.
    destruct (start_metrics_monitoring_fails_closed all_metrics SLEEP_TIME os fuel
                MAX_METRICS (payload_tokens segs) "" s Hin)
      as (s' & t & Hrun & Ht & _); [by rewrite scan_registry_registered|].
    by exists s', t.
Qed.

(** The example of the claim: [",,cpu,"] holds the one token ["cpu"]. *)
Lemma C10_only_cpu :
  parse_metrics ",,cpu," (uninitialised MAX_METRICS) MAX_METRICS
  = Some (1%nat, filled MAX_METRICS ["cpu"]).
Proof.
  exact (proj1 (C10_empty_and_blank_segments Example.registry 1 (Example.quiet ",,cpu,") 1
                  Example.fresh [""; ""; "cpu"; ""]
                  ltac:(repeat constructor) eq_refl)).
Defined.

(** ** The status reporter *)

Lemma update_status_not_fifo os status s s' t :
  update_status os status s = (Returns tt, s', t) ->
  (forall m, files s !! STATUS_FILE <> Some (Fifo m)) ->
  forall m, files s' !! STATUS_FILE <> Some (Fifo m).
Proof.
  intros Hrun Hs m. destruct (fopen_fails os STATUS_FILE) eqn:Hf.
  - rewrite update_status_failed in Hrun by done. injection Hrun as <- _. apply Hs.
  - rewrite update_status_written in Hrun by done. injection Hrun as <- _.
    cbn [files]. by rewrite lookup_insert_eq.
Qed.

Lemma create_threads_not_fifo os s s' t :
  create_threads os s = (Returns tt, s', t) ->
  (forall m, files s !! STATUS_FILE <> Some (Fifo m)) ->
  forall m, files s' !! STATUS_FILE <> Some (Fifo m).
Proof.
  intros Hrun Hs. destruct (pthread_create_fails os) eqn:Hp.
  - destruct (create_threads_failed os s Hp) as (s1 & t1 & Hst & Hct).
    rewrite Hct in Hrun. injection Hrun as <- _. by eapply update_status_not_fifo.
  - rewrite create_threads_started in Hrun by done. by injection Hrun as <- _.
Qed.

(** C8. [update_status] opens the status file for writing from its start,
    writes the status and a newline, and closes it: whatever the file held
    is replaced by that one line. If the file cannot be opened, the failure
    goes to the diagnostic stream and the call returns, the file untouched.
    Either way the call returns. *)
Theorem C8_update_status_best_effort os status s :
  (forall m, files s !! STATUS_FILE <> Some (Fifo m)) ->
  if fopen_fails os STATUS_FILE then
    update_status os status s
    = (Returns tt, set_errno EACCES s, [Fopen STATUS_FILE "w"; Perror "fopen" EACCES])
  else
    exists s',
      update_status os status s
      = (Returns tt, s',
         [Fopen STATUS_FILE "w"; Fprintf STATUS_FILE (status +:+ newline);
          Fclose STATUS_FILE])
      /\ files s' = <[STATUS_FILE := Regular (status_mode os s) (status +:+ newline)]> (files s)
      /\ STATUS_FILE ∉ streams s'.
Proof.
  intros Hs. destruct (fopen_fails os STATUS_FILE) eqn:Hf.
  - by apply update_status_failed.
  - eexists. split; [by apply update_status_written|]. split; [done|].
    cbn [streams]. rewrite elem_of_difference, elem_of_singleton. tauto.
Qed.

(** An old status is replaced, not added to. *)
Lemma C8_old_status_replaced :
  exists s',
    update_status (Example.quiet "") "Starting monitoring from FIFO" Example.used
    = (Returns tt, s',
       [Fopen STATUS_FILE "w";
        Fprintf STATUS_FILE ("Starting monitoring from FIFO" +:+ newline);
        Fclose STATUS_FILE])
    /\ files s'
       = <[STATUS_FILE := Regular 420 ("Starting monitoring from FIFO" +:+ newline)]>
           (files Example.used)
    /\ STATUS_FILE ∉ streams s'.
Proof.
  exact (C8_update_status_best_effort (Example.quiet "") "Starting monitoring from FIFO"
           Example.used ltac:(intros m; vm_compute; congruence)).
Defined.

(** ** Dispatch *)

(** C5. When every requested name is registered, the first loop of
    [start_metrics_monitoring] fills the table with one routine per name:
    the table is as long as the list of names, its entry [i] is the routine
    registered under name [i], a repeated name has its routine repeated, and
    the monitoring loop runs exactly these, in this order, on every pass. *)
Theorem C5_dispatch_table all_metrics SLEEP_TIME os fuel n (toks : list string) fs s :
  Forall2 (fun tok f => registered all_metrics tok = Some f) toks fs ->
  exists s1 t1 s2 t2 (table : array fnptr),
    create_threads os s = (Returns tt, s1, t1)
    /\ update_status os "Metrics monitoring started" s1 = (Returns tt, s2, t2)
    /\ resolve_from all_metrics os (length toks) 0 (filled n toks)
         (uninitialised (length toks)) s1
       = (Returns (Some table), s1, processing toks)
    /\ length table = length toks
    /\ (forall i tok, toks !! i = Some tok ->
          table !! i = Some (Some (registered all_metrics tok)))
    /\ start_metrics_monitoring all_metrics SLEEP_TIME os fuel (filled n toks) (length toks) s
       = (StillRunning, s2,
          InitMetrics toks :: t1 ++ processing toks ++ t2 ++ cycles SLEEP_TIME fuel fs).
Proof.
  intros Hreg.
  assert (Forall2 (fun tok f => scan_registry tok all_metrics NULL = Some f) toks fs) as Hfs.
  { eapply Forall2_impl; [done|]. intros tok f. by rewrite scan_registry_registered. }
  destruct (create_threads_frame os s) as (s1 & t1 & Hct & _).
  destruct (update_status_frame os "Metrics monitoring started" s1) as (s2 & t2 & Hst & _).
  exists s1, t1, s2, t2, (Some ∘ Some <$> fs).
  split; [done|split; [done|split; [|split; [|split]]]].
  - rewrite (resolve_from_ok all_metrics os toks fs Hfs)
      by (try (intros j tok Hj; by apply array_load_filled);
          unfold uninitialised; rewrite length_replicate; lia).
    unfold uninitialised. rewrite drop_replicate, Nat.sub_diag, take_0.
    cbn [replicate app]. by rewrite app_nil_r.
  - rewrite length_fmap. symmetry. by eapply Forall2_length.
  - intros i tok Hi. destruct (Forall2_lookup_l _ _ _ _ _ Hreg Hi) as (f & Hf & ->).
    by rewrite list_lookup_fmap, Hf.
  - by apply (start_metrics_monitoring_started all_metrics SLEEP_TIME os fuel n toks fs s s1 t1 s2 t2).
Qed.

(** The example of the specification: ["cpu,cpu"] runs the collector of
    [cpu] twice on every pass. *)
Lemma C5_cpu_twice :
  exists s' t,
    start_metrics_monitoring Example.registry 1 (Example.quiet "cpu,cpu") 2
      (filled MAX_METRICS ["cpu"; "cpu"]) 2 Example.fresh
    = (StillRunning, s', t ++ [Update 1%nat; Update 1%nat; Sleep 1; Update 1%nat; Update 1%nat; Sleep 1]).
Proof.
  destruct (C5_dispatch_table Example.registry 1 (Example.quiet "cpu,cpu") 2 MAX_METRICS
              ["cpu"; "cpu"] [1; 1]%nat Example.fresh ltac:(repeat constructor))
    as (s1 & t1 & s2 & t2 & table & _ & _ & _ & _ & _ & Hrun).
  exists s2, (InitMetrics ["cpu"; "cpu"] :: t1 ++ processing ["cpu"; "cpu"] ++ t2).
  cbn [length] in Hrun. rewrite Hrun. cbn [app]. by rewrite <- !app_assoc.
Defined.

(** C1, as the code has it. A name that the registry does not hold stops the
    dispatch at the first such name: the call returns before the loop for
    every [fuel], no collector has run, the names before it were resolved
    and are dropped with the rest, and [update_status] has been given the
    message for that name. The message is formatted into a buffer of
    [BUFFER_SIZE] bytes, so it is the first 255 bytes of the text; a name of
    up to 210 bytes is in it in full. It is in the status file when that
    file can be opened. *)
Theorem C1_dispatch_fails_closed all_metrics SLEEP_TIME os fuel n
    (pre : list string) fs bad post s :
  Forall2 (fun tok f => registered all_metrics tok = Some f) pre fs ->
  registered all_metrics bad = None ->
  (forall m, files s !! STATUS_FILE <> Some (Fifo m)) ->
  exists s1 t1 s2 t2,
    create_threads os s = (Returns tt, s1, t1)
    /\ update_status os (no_update_function_message bad) s1 = (Returns tt, s2, t2)
    /\ start_metrics_monitoring all_metrics SLEEP_TIME os fuel
         (filled n (pre ++ bad :: post)) (length (pre ++ bad :: post)) s
       = (Returns tt, s2,
          InitMetrics (pre ++ bad :: post) :: t1 ++ processing (pre ++ [bad]) ++ t2
            ++ [Stderr (no_update_function_message bad +:+ newline);
                Stderr ("Error: No update function found for metric '" +:+ bad +:+ "'" +:+ newline)])
    /\ forallb (fun e => negb (is_update e)) (t1 ++ t2) = true
    /\ no_update_function_message bad
       = String.substring 0 255 ("Error: No update function found for metric '" +:+ bad +:+ "'")
    /\ ((String.length bad <= 210)%nat ->
        no_update_function_message bad
        = "Error: No update function found for metric '" +:+ bad +:+ "'")
    /\ (fopen_fails os STATUS_FILE = false ->
        exists m, files s2 !! STATUS_FILE
                  = Some (Regular m (no_update_function_message bad +:+ newline))).
Proof.
  intros Hpre Hbad Hs.
  assert (Forall2 (fun tok f => scan_registry tok all_metrics NULL = Some f) pre fs) as Hfs.
  { eapply Forall2_impl; [done|]. intros tok f. by rewrite scan_registry_registered. }
  rewrite <- scan_registry_registered in Hbad.
  destruct (create_threads_frame os s) as (s1 & t1 & Hct & _ & _ & Ht1).
  destruct (update_status_frame os (no_update_function_message bad) s1)
    as (s2 & t2 & Hst & _ & _ & Ht2).
  exists s1, t1, s2, t2. split; [done|split; [done|]].
  split; [by apply (start_metrics_monitoring_rejected all_metrics SLEEP_TIME os fuel n
                      pre fs bad post s s1 t1 s2 t2)|].
  split; [by rewrite forallb_app, Ht1, Ht2|]. split; [done|split].
  - intros Hlen. unfold no_update_function_message, snprintf. apply substring_short.
    rewrite !string_length_app. unfold BUFFER_SIZE. cbn. lia.
  - intros Hf. pose proof (create_threads_not_fifo os s s1 t1 Hct Hs) as Hs1.
    rewrite update_status_written in Hst by done. injection Hst as <- _.
    eexists. cbn [files]. by rewrite lookup_insert_eq.
Qed.

(** The scenario of the specification: ["cpu,disk"] with a registry of
    [cpu] and [memory]. *)
Lemma C1_cpu_disk :
  exists s' t m,
    start_metrics_monitoring Example.registry 1 (Example.quiet "cpu,disk") 1
      (filled MAX_METRICS ["cpu"; "disk"]) 2 Example.fresh
    = (Returns tt, s', t)
    /\ files s' !! STATUS_FILE
       = Some (Regular m ("Error: No update function found for metric 'disk'" +:+ newline)).
Proof.
  destruct (C1_dispatch_fails_closed Example.registry 1 (Example.quiet "cpu,disk") 1
              MAX_METRICS ["cpu"] [1%nat] "disk" [] Example.fresh
              ltac:(repeat constructor) eq_refl ltac:(intros m; vm_compute; congruence))
    as (s1 & t1 & s2 & t2 & _ & _ & Hrun & _ & _ & _ & Hfile).
  destruct (Hfile eq_refl) as [m Hm].
  eexists s2, _, m. split; [exact Hrun|exact Hm].
Defined.

(** A name of 250 bytes arrives whole through the pipe and is not in the
    registry; the status file then holds the first 211 bytes of it and not
    the name. *)
Lemma C1_long_name_is_cut :
  registered Example.registry Example.long_name = None
  /\ exists s' t m content,
       start_monitoring_from_fifo Example.registry 1 (Example.quiet Example.long_name) 1
         Example.fresh
       = (Returns tt, s', t)
       /\ files s' !! STATUS_FILE = Some (Regular m content)
       /\ occurs Example.long_name content = false
       /\ String.length content = 256%nat.
Proof.
  split; [by vm_compute|].
  destruct (start_monitoring_from_fifo Example.registry 1
              (Example.quiet Example.long_name) 1 Example.fresh) as [[r s'] t] eqn:Hrun.
  vm_compute in Hrun. injection Hrun as <- <- <-.
  eexists _, _, _, _. split; [reflexivity|]. split; [by vm_compute|]. by vm_compute.
Qed.

(** ** The reader of the pipe *)

(** C6. When the first token of the payload is ["1"], whatever follows it,
    the reader lists the metrics, closes the stream, removes the pipe and
    returns: nothing of [start_metrics_monitoring] happens, for every
    [fuel]. *)
Theorem C6_list_command all_metrics SLEEP_TIME os fuel s rest :
  channel_opens os = true ->
  tokenize (received os s) MAX_METRICS = "1" :: rest ->
  start_monitoring_from_fifo all_metrics SLEEP_TIME os fuel s
  = (Returns tt, closed (opened os s), opening os s ++ ShowAvailableMetrics :: closing)
  /\ files (closed (opened os s)) !! FIFO_PATH = None
  /\ FIFO_PATH ∉ streams (closed (opened os s)).
Proof.
  intros Hopen Htoks. split; [|split].
  - rewrite start_monitoring_from_fifo_run by done. cbn zeta. rewrite Htoks.
    destruct (String.length (received os s)) eqn:Hlen; [|done].
    apply string_length_zero in Hlen. by rewrite Hlen, tokenize_nil in Htoks.
  - cbn [closed files]. apply lookup_delete_eq.
  - cbn [closed streams]. rewrite elem_of_difference, elem_of_singleton. tauto.
Qed.

(** The payload [" 1 ,cpu"]: the names after the [1] are not looked at. *)
Lemma C6_one_then_cpu :
  start_monitoring_from_fifo Example.registry 1 (Example.quiet " 1 ,cpu") 3 Example.fresh
  = (Returns tt, closed (opened (Example.quiet " 1 ,cpu") Example.fresh),
     [Mkfifo FIFO_PATH 438; Fopen FIFO_PATH "r"; Fread FIFO_PATH 7;
      ShowAvailableMetrics; Fclose FIFO_PATH; Unlink FIFO_PATH]).
Proof.
  exact (proj1 (C6_list_command Example.registry 1 (Example.quiet " 1 ,cpu") 3
                  Example.fresh ["cpu"] eq_refl eq_refl)).
Defined.

Lemma mkfifo_exists os s :
  mkfifo_fault os = None -> is_Some (files s !! FIFO_PATH) ->
  mkfifo os FIFO_PATH 438 s = (Returns (-1), set_errno EEXIST s, [Mkfifo FIFO_PATH 438]).
Proof. intros Hm [node Hn]. mrun. rewrite Hm, Hn. by mrun. Qed.

Lemma mkfifo_failure_exits all_metrics SLEEP_TIME os fuel s e :
  mkfifo_fault os = Some e -> e <> EEXIST ->
  start_monitoring_from_fifo all_metrics SLEEP_TIME os fuel s
  = (Exits EXIT_FAILURE, set_errno e s, [Mkfifo FIFO_PATH 438; Perror "mkfifo" e]).
Proof.
  intros Hm He. unfold start_monitoring_from_fifo. mrun. rewrite Hm. mrun.
  rewrite bool_decide_eq_false_2 by done. cbn [Z.eqb Pos.eqb andb negb]. by mrun.
Qed.

Lemma fopen_failure_exits all_metrics SLEEP_TIME os fuel s :
  mkfifo_fault os = None \/ mkfifo_fault os = Some EEXIST ->
  fopen_fails os FIFO_PATH = true
  \/ (mkfifo_fault os = Some EEXIST /\ files s !! FIFO_PATH = None) ->
  exists s' e,
    start_monitoring_from_fifo all_metrics SLEEP_TIME os fuel s
    = (Exits EXIT_FAILURE, s',
       [Mkfifo FIFO_PATH 438; Fopen FIFO_PATH "r"; Perror "fopen" e]).
Proof.
  intros Hm Hfail. unfold start_monitoring_from_fifo. mrun.
  change (String.eqb "r" "w") with false. cbv iota.
  destruct Hm as [Hm|Hm]; rewrite Hm; mrun.
  - destruct Hfail as [Hf|[Hm' _]]; [|congruence]. rewrite Hf.
    destruct (files s !! FIFO_PATH) as [node|] eqn:Hn; mrun.
    + rewrite bool_decide_eq_true_2 by done. cbn [Z.eqb Pos.eqb andb negb]. mrun.
      by eexists _, _.
    + change (0 =? -1) with false. mrun. by eexists _, _.
  - rewrite bool_decide_eq_true_2 by done. cbn [Z.eqb Pos.eqb andb negb]. mrun.
    destruct Hfail as [Hf|[_ Hn]].
    + rewrite Hf. by eexists _, _.
    + destruct (fopen_fails os FIFO_PATH); [by eexists _, _|]. rewrite Hn.
      by eexists _, _.
Qed.

(** C7. If the name of the pipe is taken, [mkfifo] fails with EEXIST, the
    node is as it was, and the reader goes on to open and read it: the
    process does not exit there. Any other failure of [mkfifo] ends the
    process with [EXIT_FAILURE] at once, and so does [fopen] returning NULL,
    be it refused or for want of the node. *)
Theorem C7_channel_creation all_metrics SLEEP_TIME os fuel s :
  (mkfifo_fault os = None -> is_Some (files s !! FIFO_PATH) ->
   mkfifo os FIFO_PATH 438 s = (Returns (-1), set_errno EEXIST s, [Mkfifo FIFO_PATH 438])
   /\ files (set_errno EEXIST s) = files s
   /\ (fopen_fails os FIFO_PATH = false ->
       exists r s' t,
         start_monitoring_from_fifo all_metrics SLEEP_TIME os fuel s
         = (r, s', opening os s ++ t)
         /\ (r = Returns tt \/ r = StillRunning)))
  /\ (forall e, mkfifo_fault os = Some e -> e <> EEXIST ->
      start_monitoring_from_fifo all_metrics SLEEP_TIME os fuel s
      = (Exits EXIT_FAILURE, set_errno e s, [Mkfifo FIFO_PATH 438; Perror "mkfifo" e]))
  /\ (mkfifo_fault os = None \/ mkfifo_fault os = Some EEXIST ->
      fopen_fails os FIFO_PATH = true
      \/ (mkfifo_fault os = Some EEXIST /\ files s !! FIFO_PATH = None) ->
      exists s' e,
        start_monitoring_from_fifo all_metrics SLEEP_TIME os fuel s
        = (Exits EXIT_FAILURE, s',
           [Mkfifo FIFO_PATH 438; Fopen FIFO_PATH "r"; Perror "fopen" e])).
Proof.
  split; [|split].
  - intros Hm Hnode. split; [by apply mkfifo_exists|]. split; [done|].
    intros Hf. rewrite start_monitoring_from_fifo_run
      by (unfold channel_opens; by rewrite Hm, Hf).
    cbn zeta. destruct (bool_decide _); [|by eexists _, _, _; split; [done|left]].
    destruct (tokenize (received os s) MAX_METRICS) as [|first toks] eqn:Htoks;
      [by eexists _, _, _; split; [done|left]|].
    destruct (String.eqb first "1"); [by eexists _, _, _; split; [done|left]|].
    destruct (start_metrics_monitoring_outcome all_metrics SLEEP_TIME os fuel MAX_METRICS
                (first :: toks) (opened os s)) as (r & s' & t & -> & [-> | ->]).
    + eexists _, _, _. split; [done|by left].
    + eexists _, _, _. split; [done|by right].
  - intros e. by apply mkfifo_failure_exits.
  - by apply fopen_failure_exits.
Qed.

(** With the pipe already there, the run goes on to the payload. *)
Lemma C7_pipe_already_there :
  mkfifo (Example.quiet "1") FIFO_PATH 438 Example.used
  = (Returns (-1), set_errno EEXIST Example.used, [Mkfifo FIFO_PATH 438])
  /\ files (set_errno EEXIST Example.used) = files Example.used.
Proof.
  pose proof (proj1 (C7_channel_creation Example.registry 1 (Example.quiet "1") 1 Example.used)
                eq_refl ltac:(by eexists)) as (Hmk & Hfiles & _).
  exact (conj Hmk Hfiles).
Defined.

Lemma cycles_events SLEEP_TIME n fs e :
  e ∈ cycles SLEEP_TIME n fs -> is_update e = true \/ e = Sleep SLEEP_TIME.
Proof.
  unfold cycles. induction n as [|n IH]; cbn [replicate mjoin list_join].
  - by intros ?%elem_of_nil.
  - rewrite !elem_of_app, list_elem_of_fmap, list_elem_of_singleton.
    intros [[Hf| ->]|Hin]; [|by right|by apply IH].
    destruct Hf as (f & -> & _). by left.
Qed.

(** Whenever the reader returns, it has closed the stream and removed the
    pipe, and these are the last things it did. *)
Lemma channel_released_on_return all_metrics SLEEP_TIME os fuel s s' t :
  channel_opens os = true ->
  start_monitoring_from_fifo all_metrics SLEEP_TIME os fuel s = (Returns tt, s', t) ->
  files s' !! FIFO_PATH = None
  /\ (FIFO_PATH ∉ streams s')
  /\ exists t0, t = t0 ++ closing.
Proof.
  assert (forall s0, files (closed s0) !! FIFO_PATH = None
                     /\ FIFO_PATH ∉ streams (closed s0)) as Hclosed.
  { intros s0. cbn [closed files streams]. split; [apply lookup_delete_eq|].
    rewrite elem_of_difference, elem_of_singleton. tauto. }
  intros Hopen. rewrite start_monitoring_from_fifo_run by done. cbn zeta.
  destruct (bool_decide _).
  2:{ intros [= <- <-]. destruct (Hclosed (opened os s)). split; [done|split; [done|]].
      by exists (opening os s ++ [Perror "fread" (errno (opened os s))]). }
  destruct (tokenize (received os s) MAX_METRICS) as [|first toks].
  { intros [= <- <-]. destruct (Hclosed (opened os s)). split; [done|split; [done|]].
    by exists (opening os s). }
  destruct (String.eqb first "1").
  { intros [= <- <-]. destruct (Hclosed (opened os s)). split; [done|split; [done|]].
    by exists (opening os s ++ [ShowAvailableMetrics]). }
  destruct (start_metrics_monitoring _ _ _ _ _ _ _) as [[[[]| | |] s1] t1]; try done.
  intros [= <- <-]. destruct (Hclosed s1). split; [done|split; [done|]].
  exists (opening os s ++ t1). by rewrite <- app_assoc.
Qed.

(** C2 fails on the code. The payload ["cpu"] with [cpu] registered starts
    the monitoring, which does not return: however long one watches, the
    stream of the pipe is open, its node is there, and neither [fclose] nor
    [unlink] has been called on it. *)
Theorem C2_channel_kept_while_monitoring fuel :
  exists s' t,
    start_monitoring_from_fifo Example.registry 1 (Example.quiet "cpu") fuel Example.fresh
    = (StillRunning, s', t)
    /\ files s' !! FIFO_PATH = Some (Fifo 420)
    /\ FIFO_PATH ∈ streams s'
    /\ (Fclose FIFO_PATH ∉ t)
    /\ (Unlink FIFO_PATH ∉ t).
Proof.
  rewrite start_monitoring_from_fifo_run by done. cbn zeta.
  change (tokenize (received (Example.quiet "cpu") Example.fresh) MAX_METRICS) with ["cpu"].
  change (bool_decide _) with true. cbv iota. change (String.eqb "cpu" "1") with false.
  cbv iota.
  erewrite (start_metrics_monitoring_started Example.registry 1 (Example.quiet "cpu") fuel
              MAX_METRICS ["cpu"] [1%nat]);
    [|repeat constructor|by apply create_threads_started
     |apply update_status_written; [done|intros m; vm_compute; congruence]].
  eexists _, _. split; [done|]. split; [by vm_compute|]. split.
  { cbn [streams opened]. vm_compute. tauto. }
  split; intros Hin; repeat (apply elem_of_cons in Hin as [Heq|Hin]; [done|]);
    by apply cycles_events in Hin as [?|?].
Qed.

(** C3 fails on the code. When the thread of the responder cannot be
    created, [create_threads] reports it and returns, and the caller goes on
    to the dispatch and into the loop: the collector of [cpu] runs though no
    responder was started. *)
Theorem C3_updates_without_responder :
  exists s',
    start_monitoring_from_fifo Example.registry 1 (Example.no_thread "cpu") 1 Example.fresh
    = (StillRunning, s',
       [Mkfifo FIFO_PATH 438; Fopen FIFO_PATH "r"; Fread FIFO_PATH 3;
        InitMetrics ["cpu"];
        PthreadCreate false;
        Stderr ("Error creating HTTP server thread" +:+ newline);
        Fopen STATUS_FILE "w";
        Fprintf STATUS_FILE ("Error creating HTTP server thread" +:+ newline);
        Fclose STATUS_FILE;
        Stdout ("Processing metric: 'cpu'" +:+ newline);
        Fopen STATUS_FILE "w";
        Fprintf STATUS_FILE ("Metrics monitoring started" +:+ newline);
        Fclose STATUS_FILE;
        Update 1%nat; Sleep 1]).
Proof.
  destruct (start_monitoring_from_fifo Example.registry 1 (Example.no_thread "cpu") 1
              Example.fresh) as [[r s'] t] eqn:Hrun.
  vm_compute in Hrun. injection Hrun as <- <- <-. by eexists.
Qed.

(** * Further properties of the code *)

(** ** [trim_whitespace] and [parse_metrics] *)

Lemma skip_spaces_split s :
  exists l, s = l +:+ skip_spaces s /\ blank l = true.
Proof.
  induction s as [|c s (l & Hs & Hl)]; [by exists ""|].
  cbn [skip_spaces]. destruct (isspace c) eqn:Hc.
  - exists (String c l). rewrite string_app_cons, <- Hs. split; [done|].
    unfold blank in *. by rewrite all_chars_cons, Hc, Hl.
  - by exists "".
Qed.

Lemma skip_spaces_head s c rest : skip_spaces s = String c rest -> isspace c = false.
Proof.
  induction s as [|x s IH]; [done|]. cbn [skip_spaces].
  destruct (isspace x) eqn:Hx; [done|]. by intros [= <- _].
Qed.

Lemma substring_snoc (str : string) n c :
  String.get n str = Some c ->
  String.substring 0 (S n) str = String.substring 0 n str +:+ String c "".
Proof.
  revert n. induction str as [|x str IH]; intros n; [by destruct n|].
  destruct n as [|n]; cbn [String.get].
  - intros [= ->]. cbn. by destruct str.
  - intros Hn. cbn [String.substring]. by rewrite (IH n Hn), string_app_cons.
Qed.

Lemma substring_prefix_length (str : string) n :
  (n <= String.length str)%nat -> String.length (String.substring 0 n str) = n.
Proof.
  revert n. induction str as [|x str IH]; intros n Hn.
  - cbn in Hn. by replace n with 0%nat by lia.
  - destruct n as [|n]; [done|]. cbn in *. rewrite IH; lia.
Qed.

Lemma substring_prefix_get (str : string) n i :
  (i < n)%nat -> String.get i (String.substring 0 n str) = String.get i str.
Proof.
  intros Hi. rewrite (substring_correct1 str 0 n i Hi). f_equal. lia.
Qed.

(** What the backward scan passes over is whitespace. *)
Lemma scan_back_split (str : string) e :
  (e < String.length str)%nat ->
  exists r,
    String.substring 0 (S e) str = String.substring 0 (S (scan_back str e)) str +:+ r
    /\ blank r = true.
Proof.
  induction e as [|e IH]; intros He.
  - exists "". by rewrite string_app_nil_r.
  - cbn [scan_back]. destruct (string_get_lt str (S e) He) as [c Hc]. rewrite Hc.
    destruct (isspace c) eqn:Hsp.
    + destruct IH as (r & Hr & Hblank); [lia|].
      exists (r +:+ String c ""). rewrite (substring_snoc _ _ _ Hc), Hr, string_app_assoc.
      split; [done|]. unfold blank in *. by rewrite all_chars_app, Hblank, all_chars_cons, Hsp.
    + exists "". by rewrite string_app_nil_r.
Qed.

(** It stops on a character that is no whitespace, or at the first one. *)
Lemma scan_back_stops (str : string) e :
  (e < String.length str)%nat ->
  scan_back str e = 0%nat
  \/ exists c, String.get (scan_back str e) str = Some c /\ isspace c = false.
Proof.
  induction e as [|e IH]; intros He; [by left|].
  cbn [scan_back]. destruct (string_get_lt str (S e) He) as [c Hc]. rewrite Hc.
  destruct (isspace c) eqn:Hsp; [apply IH; lia|]. right. by exists c.
Qed.

Lemma scan_back_le (str : string) e : (scan_back str e <= e)%nat.
Proof.
  induction e as [|e IH]; [done|]. cbn [scan_back].
  destruct (String.get (S e) str) as [c|]; [|done]. destruct (isspace c); lia.
Qed.

Lemma trim_whitespace_shape s :
  exists l r,
    s = l +:+ trim_whitespace s +:+ r
    /\ blank l = true /\ blank r = true /\ trimmed (trim_whitespace s) = true.
Proof.
  destruct (skip_spaces_split s) as (l & Hs & Hl). unfold trim_whitespace.
  destruct (skip_spaces s) as [|c rest] eqn:Hskip.
  { exists l, "". split; [exact Hs|done]. }
  pose proof (skip_spaces_head _ _ _ Hskip) as Hc.
  set (str := String c rest) in *. unfold strlen.
  assert (String.length str - 1 < String.length str)%nat as He by (cbn; lia).
  destruct (scan_back_split str _ He) as (r & Hr & Hblank).
  replace (S (String.length str - 1)) with (String.length str) in Hr by (cbn; lia).
  rewrite substring_full in Hr.
  pose proof (scan_back_le str (String.length str - 1)) as Hle.
  set (e := scan_back str (String.length str - 1)) in *.
  replace (e + 1)%nat with (S e) by lia.
  exists l, r. split; [by rewrite <- Hr|]. split; [done|split; [done|]].
  unfold trimmed. rewrite substring_prefix_length by lia.
  rewrite !substring_prefix_get by lia. replace (S e - 1)%nat with e by lia.
  change (String.get 0 str) with (Some c).
  destruct (scan_back_stops str _ He) as [H0|(x & Hx & Hsp)]; fold e in H0 || fold e in Hx.
  - rewrite H0. change (String.get 0 str) with (Some c). cbv iota. by rewrite Hc.
  - rewrite Hx. cbv iota. by rewrite Hc, Hsp.
Qed.

(** X1. [trim_whitespace] takes whitespace away at both ends and nothing
    else: the text is the result between two runs of whitespace, the result
    has whitespace at neither end, and trimming it again changes nothing. *)
Theorem trim_whitespace_spec (s : string) :
  exists l r,
    s = l +:+ trim_whitespace s +:+ r
    /\ blank l = true /\ blank r = true
    /\ trimmed (trim_whitespace s) = true
    /\ trim_whitespace (trim_whitespace s) = trim_whitespace s.
Proof.
  destruct (trim_whitespace_shape s) as (l & r & Hs & Hl & Hr & Ht).
  exists l, r. repeat split; try done.
  rewrite <- (string_app_nil_r (trim_whitespace s)) at 1.
  by apply (trim_whitespace_padded "" (trim_whitespace s) "").
Qed.

Lemma c_str_is_nul_free s : nul_free (c_str s) = true.
Proof.
  unfold nul_free. induction s as [|c s IH]; [done|]. cbn [c_str].
  destruct (Ascii.eqb c NUL) eqn:Hc; [done|]. by rewrite all_chars_cons, Hc, IH.
Qed.

Lemma c_str_before_nul (a b : string) : c_str (a +:+ String NUL b) = c_str a.
Proof.
  induction a as [|c a IH]; [done|]. rewrite string_app_cons. cbn [c_str].
  by rewrite IH.
Qed.

Lemma skip_delims_all_chars p delim s :
  all_chars p s = true -> all_chars p (skip_delims delim s) = true.
Proof.
  induction s as [|c s IH]; [done|]. cbn [skip_delims].
  destruct (is_delim delim c); [|done].
  rewrite all_chars_cons. intros [_ Hs]%andb_prop. auto.
Qed.

Lemma split_token_all_chars p delim s :
  all_chars p s = true ->
  all_chars p (split_token delim s).1 = true /\ all_chars p (split_token delim s).2 = true.
Proof.
  induction s as [|c s IH]; [done|]. rewrite all_chars_cons.
  intros [Hc Hs]%andb_prop. cbn [split_token].
  destruct (is_delim delim c); [done|].
  destruct (IH Hs) as [Ht Hr]. destruct (split_token delim s) as [tok saved].
  cbn [fst snd] in *. by rewrite all_chars_cons, Hc, Ht.
Qed.

Lemma split_token_no_delim delim s :
  all_chars (fun c => negb (is_delim delim c)) (split_token delim s).1 = true.
Proof.
  induction s as [|c s IH]; [done|]. cbn [split_token].
  destruct (is_delim delim c) eqn:Hc; [done|].
  destruct (split_token delim s) as [tok saved]. cbn [fst] in *.
  by rewrite all_chars_cons, Hc, IH.
Qed.

Lemma all_chars_both p q s :
  all_chars p s = true -> all_chars q s = true ->
  all_chars (fun c => p c && q c) s = true.
Proof.
  induction s as [|c s IH]; [done|]. rewrite !all_chars_cons.
  intros [Hp Hps]%andb_prop [Hq Hqs]%andb_prop. by rewrite Hp, Hq, IH.
Qed.

(** A token of [strtok] holds no comma, and what is left to scan is still a
    C string. *)
Lemma strtok_clean s :
  nul_free s = true ->
  match strtok s "," with
  | (Some tok, saved) => segment tok = true /\ nul_free saved = true
  | (None, saved) => nul_free saved = true
  end.
Proof.
  intros Hs. unfold strtok.
  pose proof (skip_delims_all_chars _ "," s Hs) as Hskip.
  destruct (skip_delims "," s) as [|c rest]; [done|].
  pose proof (split_token_all_chars _ "," _ Hskip) as [Htok Hsaved].
  pose proof (split_token_no_delim "," (String c rest)) as Hnd.
  destruct (split_token "," (String c rest)) as [tok saved]. cbn [fst snd] in *.
  split; [|done]. by apply all_chars_both.
Qed.

Lemma strtok_iter_clean n token saved :
  (forall tok, token = Some tok -> segment tok = true) ->
  nul_free saved = true ->
  Forall (fun t => trimmed t = true /\ segment t = true) (strtok_iter n token saved).
Proof.
  revert token saved. induction n as [|n IH]; intros [tok|] saved Htok Hsaved;
    cbn [strtok_iter]; try by constructor.
  specialize (Htok tok eq_refl). rewrite strdup_trim_segment by done.
  constructor.
  - destruct (trim_whitespace_shape tok) as (_ & _ & _ & _ & _ & Ht).
    split; [done|]. by apply trim_whitespace_all_chars.
  - pose proof (strtok_clean saved Hsaved) as Hnext.
    destruct (strtok saved ",") as [[tok'|] saved'].
    + destruct Hnext. apply IH; [by intros ? [= <-]|done].
    + apply IH; [done|done].
Qed.

(** X2. Every token that [parse_metrics] stores is clean: no comma and no
    NUL in it, and whitespace at neither end (it may be empty). *)
Theorem parse_metrics_tokens_clean (input : string) (max_metrics : nat) :
  exists toks,
    parse_metrics input (uninitialised max_metrics) max_metrics
    = Some (length toks, filled max_metrics toks)
    /\ Forall (fun t => trimmed t = true /\ segment t = true) toks.
Proof.
  exists (tokenize input max_metrics). split; [apply parse_metrics_filled|].
  unfold tokenize, strdup. pose proof (strtok_clean _ (c_str_is_nul_free input)) as Hfirst.
  destruct (strtok (c_str input) ",") as [[tok|] saved].
  - destruct Hfirst. apply strtok_iter_clean; [by intros ? [= <-]|done].
  - by apply strtok_iter_clean.
Qed.

Lemma strtok_iter_take n m token saved :
  (n <= m)%nat -> strtok_iter n token saved = take n (strtok_iter m token saved).
Proof.
  revert m token saved. induction n as [|n IH]; intros m token saved Hnm.
  - by destruct token.
  - destruct m as [|m]; [lia|]. destruct token as [tok|]; [|done].
    cbn [strtok_iter take]. f_equal.
    destruct (strtok saved ",") as [token' saved']. apply IH. lia.
Qed.

(** X3. The limit only cuts the list short: with a smaller [max_metrics]
    the tokens stored are the first ones of those stored with a larger. *)
Theorem parse_metrics_limit_cuts (input : string) (n m : nat) :
  (n <= m)%nat ->
  exists toks,
    parse_metrics input (uninitialised m) m = Some (length toks, filled m toks)
    /\ parse_metrics input (uninitialised n) n
       = Some (length (take n toks), filled n (take n toks)).
Proof.
  intros Hnm. exists (tokenize input m). split; [apply parse_metrics_filled|].
  rewrite parse_metrics_filled. unfold tokenize.
  destruct (strtok (strdup input) ",") as [token saved].
  by rewrite (strtok_iter_take n m).
Qed.

(** Of five names, a limit of two keeps the first two of the four that a
    limit of four keeps. *)
Lemma parse_metrics_limit_cuts_example :
  exists toks,
    parse_metrics "a,b,c,d,e" (uninitialised 4) 4 = Some (length toks, filled 4 toks)
    /\ parse_metrics "a,b,c,d,e" (uninitialised 2) 2
       = Some (length (take 2 toks), filled 2 (take 2 toks)).
Proof. exact (parse_metrics_limit_cuts "a,b,c,d,e" 2 4 ltac:(lia)). Defined.

(** X4. Bytes after a NUL do not count: the payload ends at its first NUL
    for [parse_metrics], whatever follows it. *)
Theorem parse_metrics_stops_at_nul (a b : string) (output : array string) (max_metrics : nat) :
  parse_metrics (a +:+ String NUL b) output max_metrics = parse_metrics a output max_metrics.
Proof. unfold parse_metrics, strdup. by rewrite c_str_before_nul. Qed.

(** ** The registry *)

(** X5. The scan of the registry is by exact name and the first entry of
    that name decides: the result is its routine, NULL included, whatever
    entries of the same name follow; with no entry of that name it is
    NULL. *)
Theorem scan_registry_first_entry (all_metrics : list MetricInfo) (metric_name : string) :
  (forall pre entry post,
     all_metrics = pre ++ entry :: post ->
     Forall (fun e => name e <> metric_name) pre ->
     name entry = metric_name ->
     scan_registry metric_name all_metrics NULL = update_function entry)
  /\ (Forall (fun e => name e <> metric_name) all_metrics ->
      scan_registry metric_name all_metrics NULL = NULL).
Proof.
  split.
  - intros pre entry post -> Hpre Hname.
    induction Hpre as [|e pre He _ IH]; cbn [app scan_registry]; rewrite strcmp_eq.
    + by rewrite Hname, String.eqb_refl.
    + destruct (String.eqb_spec metric_name (name e)) as [Heq|_]; [by destruct He|done].
  - induction 1 as [|e rest He _ IH]; [done|]. cbn [scan_registry]. rewrite strcmp_eq.
    destruct (String.eqb_spec metric_name (name e)) as [Heq|_]; [by destruct He|done].
Qed.

(** ** The status reporter *)


(** X7. The last status wins: after two calls in a row the files are as
    after the second call alone; nothing of the first status is left. *)
Theorem update_status_last_wins os (first second : string) s :
  fopen_fails os STATUS_FILE = false ->
  (forall m, files s !! STATUS_FILE <> Some (Fifo m)) ->
  exists s1 t1 s2 t2 s3 t3,
    update_status os first s = (Returns tt, s1, t1)
    /\ update_status os second s1 = (Returns tt, s2, t2)
    /\ update_status os second s = (Returns tt, s3, t3)
    /\ files s2 = files s3
    /\ files s2 !! STATUS_FILE = Some (Regular (status_mode os s) (second +:+ newline)).
Proof.
  intros Hf Hs. eexists _, _, _, _, _, _.
  split; [by apply update_status_written|].
  split; [apply update_status_written; [done|]|].
  { intros m. cbn [files]. by rewrite lookup_insert_eq. }
  split; [by apply update_status_written|]. cbn [files].
  assert (status_mode os
            {| files := <[STATUS_FILE:=Regular (status_mode os s) (first +:+ newline)]> (files s);
               streams := ({[STATUS_FILE]} ∪ streams s) ∖ {[STATUS_FILE]};
               errno := errno s |} = status_mode os s) as ->.
  { unfold status_mode at 1. cbn [files]. by rewrite lookup_insert_eq. }
  rewrite insert_insert_eq. split; [done|]. by rewrite lookup_insert_eq.
Qed.

(** An old status and two new ones. *)
Lemma update_status_last_wins_example :
  exists s1 t1 s2 t2 s3 t3,
    update_status (Example.quiet "") "Starting monitoring from FIFO" Example.used
    = (Returns tt, s1, t1)
    /\ update_status (Example.quiet "") "Metrics monitoring started" s1 = (Returns tt, s2, t2)
    /\ update_status (Example.quiet "") "Metrics monitoring started" Example.used
       = (Returns tt, s3, t3)
    /\ files s2 = files s3
    /\ files s2 !! STATUS_FILE
       = Some (Regular 420 ("Metrics monitoring started" +:+ newline)).
Proof.
  exact (update_status_last_wins (Example.quiet "") "Starting monitoring from FIFO"
           "Metrics monitoring started" Example.used eq_refl
           ltac:(intros m; vm_compute; congruence)).
Defined.

(** ** The monitoring loop *)

Lemma for_from_pass (table : list fnptr) :
  forall i (uf : array fnptr) s,
  (forall j f, table !! j = Some f -> array_load uf (i + j) = Some f) ->
  for_from (length table) i (fun i =>
    f ← load uf i;
    match f with
    | Some f => emit (Update f)
    | None => fprintf_stderr ("Error: update_functions[" +:+ pretty i +:+ "] is NULL" +:+ newline)
    end) s
  = (Returns tt, s,
     imap (fun j f =>
             match f with
             | Some f => Update f
             | None => Stderr ("Error: update_functions[" +:+ pretty (i + j)%nat +:+ "] is NULL" +:+ newline)
             end) table).
Proof.
  induction table as [|f table IH]; intros i uf s Huf; [done|].
  cbn [length for_from]. rewrite run_bind, run_bind.
  rewrite (run_load _ _ f) by (rewrite <- (Nat.add_0_r i); by apply Huf).
  cbn [imap]. rewrite Nat.add_0_r.
  assert (forall j, (S i + j = i + S j)%nat) as Hshift by lia.
  destruct f as [f|]; [unfold emit at 1|unfold fprintf_stderr at 1, emit at 1];
    (rewrite IH by (intros j g Hj; rewrite Hshift; by apply Huf));
    cbn [app]; do 2 f_equal; apply imap_ext; intros j g _; cbn;
    by rewrite ?Nat.add_succ_r.
Qed.

(** One pass over the table: the routine of every slot in order, and for a
    NULL slot the complaint with its index. *)
Lemma update_all_pass (table : list fnptr) s :
  update_all (Some <$> table) (length table) s = (Returns tt, s, pass_events table).
Proof.
  unfold update_all, for_loop, pass_events.
  rewrite for_from_pass; [done|].
  intros j f Hj. change (0 + j)%nat with j. unfold array_load.
  by rewrite list_lookup_fmap, Hj.
Qed.

(** X8. The monitoring loop does not end and leaves the state alone:
    watched for any number of passes it is still running, and every pass was
    the same: the routine of every slot of the table in order, for a NULL
    slot the complaint with its index and on to the next slot, and then
    the sleep. *)
Theorem monitoring_loop_passes SLEEP_TIME fuel (table : list fnptr) s :
  monitoring_loop SLEEP_TIME fuel (Some <$> table) (length table) s
  = (StillRunning, s, mjoin (replicate fuel (pass_events table ++ [Sleep SLEEP_TIME]))).
Proof.
  induction fuel as [|fuel IH]; [done|].
  cbn [monitoring_loop]. rewrite run_bind.
  rewrite update_all_pass.
  rewrite run_bind. unfold sleep at 1, emit at 1. rewrite IH.
  cbn [replicate mjoin list_join]. by rewrite <- !app_assoc.
Qed.

(** ** The reader of the pipe, whatever its surroundings *)

(** Making and opening the pipe when [mkfifo] may also report a node that
    is there. *)
Lemma open_channel_ready os (K : option string -> M unit) s :
  channel_ready os s ->
  (rc ← mkfifo os FIFO_PATH 438;
   s ← get_state;
   (if (rc =? -1) && negb (bool_decide (errno s = EEXIST))
    then perror "mkfifo";; exit EXIT_FAILURE
    else mret tt);;
   fifo_file ← fopen os FIFO_PATH "r";
   K fifo_file) s
  = let '(r, s', t) := K (Some FIFO_PATH) (opened os s) in
    (r, s', Mkfifo FIFO_PATH 438 :: Fopen FIFO_PATH "r" :: t).
Proof.
  intros [Hf [Hm|[Hm [node Hn]]]].
  - apply open_channel_run. unfold channel_opens. by rewrite Hm, Hf.
  - unfold opened. mrun. rewrite Hm, Hf. mrun.
    change (String.eqb "r" "w") with false. cbv iota.
    rewrite bool_decide_eq_true_2 by done. cbn [Z.eqb Pos.eqb andb negb]. mrun.
    rewrite Hn. by destruct (K _ _) as [[r s'] t].
Qed.

Lemma start_monitoring_from_fifo_ready all_metrics SLEEP_TIME os fuel s :
  channel_ready os s ->
  start_monitoring_from_fifo all_metrics SLEEP_TIME os fuel s
  = let toks := tokenize (received os s) MAX_METRICS in
    if bool_decide (0 < String.length (received os s))%nat then
      match toks with
      | [] => (Returns tt, closed (opened os s), opening os s ++ closing)
      | first :: _ =>
          if String.eqb first "1" then
            (Returns tt, closed (opened os s),
             opening os s ++ ShowAvailableMetrics :: closing)
          else
            match start_metrics_monitoring all_metrics SLEEP_TIME os fuel
                    (filled MAX_METRICS toks) (length toks) (opened os s) with
            | (Returns _, s', t) => (Returns tt, closed s', opening os s ++ t ++ closing)
            | (r, s', t) => (r, s', opening os s ++ t)
            end
      end
    else
      (Returns tt, closed (opened os s),
       opening os s ++ Perror "fread" (errno (opened os s)) :: closing).
Proof.
  intros Hopen. cbn zeta. unfold start_monitoring_from_fifo.
  rewrite open_channel_ready by done. cbv beta iota.
  rewrite run_bind. unfold fread at 1. rewrite run_bind. unfold get_state at 1.
  rewrite run_bind. unfold emit at 1. rewrite run_ret, received_opened.
  cbn [app]. unfold opening.
  destruct (bool_decide (0 < String.length (received os s))%nat) eqn:Hlen.
  2:{ rewrite run_bind. unfold perror at 1. rewrite run_bind.
      unfold get_state at 1, emit at 1. done. }
  rewrite parse_metrics_filled.
  destruct (tokenize (received os s) MAX_METRICS) as [|first toks] eqn:Htoks.
  { cbn [length]. rewrite bool_decide_eq_false_2 by lia. cbn [andb].
    rewrite !run_bind, !run_ret. done. }
  cbn [length]. rewrite !(bool_decide_eq_true_2 (0 < S _)%nat) by lia.
  rewrite run_bind, (run_load _ _ first) by by apply array_load_filled.
  cbn [andb]. rewrite strcmp_eq.
  destruct (String.eqb first "1").
  { rewrite run_bind. unfold show_available_metrics at 1, emit at 1. done. }
  rewrite run_bind.
  by destruct (start_metrics_monitoring _ _ _ _ _ _ _) as [[[[]| | |] s'] t].
Qed.

(** Either the pipe is ready, or the reader ends the process. *)
Lemma channel_ready_or_exit all_metrics SLEEP_TIME os fuel s :
  channel_ready os s
  \/ (~ channel_ready os s
      /\ exists s' t,
           start_monitoring_from_fifo all_metrics SLEEP_TIME os fuel s
           = (Exits EXIT_FAILURE, s', t)).
Proof.
  unfold channel_ready.
  destruct (fopen_fails os FIFO_PATH) eqn:Hf.
  { right. split; [by intros [? _]|].
    destruct (mkfifo_fault os) as [e|] eqn:Hm.
    - destruct (decide (e = EEXIST)) as [->|He].
      + destruct (fopen_failure_exits all_metrics SLEEP_TIME os fuel s) as (s' & e & Hrun);
          [by right|by left|by eexists _, _].
      + eexists _, _. by apply (mkfifo_failure_exits all_metrics SLEEP_TIME os fuel s e).
    - destruct (fopen_failure_exits all_metrics SLEEP_TIME os fuel s) as (s' & e & Hrun);
        [by left|by left|by eexists _, _]. }
  destruct (mkfifo_fault os) as [e|] eqn:Hm; [|by left; split; [|left]].
  destruct (decide (e = EEXIST)) as [->|He].
  - destruct (files s !! FIFO_PATH) as [node|] eqn:Hn.
    + left. split; [done|]. right. split; [done|by eexists].
    + right. split.
      { intros [_ [?|[_ [? ?]]]]; congruence. }
      destruct (fopen_failure_exits all_metrics SLEEP_TIME os fuel s) as (s' & e & Hrun);
        [by right|by right|by eexists _, _].
  - right. split.
    { intros [_ [?|[? _]]]; congruence. }
    eexists _, _. by apply (mkfifo_failure_exits all_metrics SLEEP_TIME os fuel s e).
Qed.

Lemma closed_released s0 :
  files (closed s0) !! FIFO_PATH = None /\ FIFO_PATH ∉ streams (closed s0).
Proof.
  cbn [closed files streams]. split; [apply lookup_delete_eq|].
  rewrite elem_of_difference, elem_of_singleton. tauto.
Qed.

Lemma opened_has_channel os s :
  is_Some (files (opened os s) !! FIFO_PATH) /\ FIFO_PATH ∈ streams (opened os s).
Proof.
  unfold opened. destruct (files s !! FIFO_PATH) as [node|] eqn:Hn; cbn [files streams].
  - rewrite Hn. split; [by eexists|]. apply elem_of_union. left. by apply elem_of_singleton.
  - rewrite lookup_insert_eq. split; [by eexists|].
    apply elem_of_union. left. by apply elem_of_singleton.
Qed.

Lemma tokenize_received_nonempty os s tok toks :
  tokenize (received os s) MAX_METRICS = tok :: toks ->
  bool_decide (0 < String.length (received os s))%nat = true.
Proof.
  intros Htoks. apply bool_decide_eq_true_2.
  destruct (String.length (received os s)) eqn:Hlen; [|lia].
  apply string_length_zero in Hlen. by rewrite Hlen, tokenize_nil in Htoks.
Qed.

(** X9. The reader never leaves defined behaviour, whatever the payload:
    for every registry, surroundings and state its call returns, is in the
    monitoring loop, or has ended the process with [EXIT_FAILURE]; and it
    ends the process exactly when the pipe could neither be made nor found,
    or could not be opened. *)
Theorem start_monitoring_from_fifo_outcome all_metrics SLEEP_TIME os fuel s :
  exists r s' t,
    start_monitoring_from_fifo all_metrics SLEEP_TIME os fuel s = (r, s', t)
    /\ (r = Returns tt \/ r = StillRunning \/ r = Exits EXIT_FAILURE)
    /\ (r = Exits EXIT_FAILURE <-> ~ channel_ready os s).
Proof.
  destruct (channel_ready_or_exit all_metrics SLEEP_TIME os fuel s)
    as [Hready|[Hnot (s' & t & Hrun)]].
  2:{ exists (Exits EXIT_FAILURE), s', t. split; [done|]. split; [by right; right|done]. }
  rewrite start_monitoring_from_fifo_ready by done. cbn zeta.
  assert (forall (r : outcome unit),
            r = Returns tt \/ r = StillRunning ->
            (r = Returns tt \/ r = StillRunning \/ r = Exits EXIT_FAILURE)
            /\ (r = Exits EXIT_FAILURE <-> ~ channel_ready os s)) as Hok.
  { intros r [-> | ->]; (split; [tauto|]); split; done. }
  destruct (bool_decide _); [|by eexists _, _, _; split; [done|apply Hok; left]].
  destruct (tokenize (received os s) MAX_METRICS) as [|first toks];
    [by eexists _, _, _; split; [done|apply Hok; left]|].
  destruct (String.eqb first "1"); [by eexists _, _, _; split; [done|apply Hok; left]|].
  destruct (start_metrics_monitoring_outcome all_metrics SLEEP_TIME os fuel MAX_METRICS
              (first :: toks) (opened os s)) as (r & s' & t & -> & [-> | ->]).
  - eexists _, _, _. split; [done|]. apply Hok. by left.
  - eexists _, _, _. split; [done|]. apply Hok. by right.
Qed.

(** X10. Whenever the reader returns, in whatever surroundings and for
    whatever payload, the stream of the pipe is closed, no node has the
    name of the pipe any more, be it the reader's own pipe or a node that
    was there before, and [fclose] and [unlink] were the last things it
    did. *)
Theorem start_monitoring_from_fifo_returns_released all_metrics SLEEP_TIME os fuel s s' t :
  start_monitoring_from_fifo all_metrics SLEEP_TIME os fuel s = (Returns tt, s', t) ->
  files s' !! FIFO_PATH = None
  /\ (FIFO_PATH ∉ streams s')
  /\ exists t0, t = t0 ++ closing.
Proof.
  destruct (channel_ready_or_exit all_metrics SLEEP_TIME os fuel s)
    as [Hready|[_ (s1 & t1 & ->)]]; [|done].
  rewrite start_monitoring_from_fifo_ready by done. cbn zeta.
  destruct (bool_decide _).
  2:{ intros [= <- <-]. destruct (closed_released (opened os s)).
      split; [done|split; [done|]].
      by exists (opening os s ++ [Perror "fread" (errno (opened os s))]). }
  destruct (tokenize (received os s) MAX_METRICS) as [|first toks].
  { intros [= <- <-]. destruct (closed_released (opened os s)).
    split; [done|split; [done|]]. by exists (opening os s). }
  destruct (String.eqb first "1").
  { intros [= <- <-]. destruct (closed_released (opened os s)).
    split; [done|split; [done|]]. by exists (opening os s ++ [ShowAvailableMetrics]). }
  destruct (start_metrics_monitoring _ _ _ _ _ _ _) as [[[[]| | |] s1] t1]; try done.
  intros [= <- <-]. destruct (closed_released s1). split; [done|split; [done|]].
  exists (opening os s ++ t1). by rewrite <- app_assoc.
Qed.

(** A writer that sends nothing. *)
Lemma start_monitoring_from_fifo_returns_released_example :
  files (closed (opened (Example.quiet "") Example.used)) !! FIFO_PATH = None
  /\ (FIFO_PATH ∉ streams (closed (opened (Example.quiet "") Example.used)))
  /\ exists t0,
       [Mkfifo FIFO_PATH 438; Fopen FIFO_PATH "r"; Fread FIFO_PATH 0;
        Perror "fread" EEXIST; Fclose FIFO_PATH; Unlink FIFO_PATH]
       = t0 ++ closing.
Proof.
  exact (start_monitoring_from_fifo_returns_released Example.registry 1 (Example.quiet "") 1
           Example.used _ _ eq_refl).
Defined.

(** X11. A writer that closes the pipe without a byte: the reader says so
    with [perror], starts nothing, closes and removes the pipe and
    returns. *)
Theorem start_monitoring_from_fifo_nothing_read all_metrics SLEEP_TIME os fuel s :
  channel_ready os s ->
  received os s = "" ->
  start_monitoring_from_fifo all_metrics SLEEP_TIME os fuel s
  = (Returns tt, closed (opened os s),
     [Mkfifo FIFO_PATH 438; Fopen FIFO_PATH "r"; Fread FIFO_PATH 0;
      Perror "fread" (errno (opened os s)); Fclose FIFO_PATH; Unlink FIFO_PATH]).
Proof.
  intros Hready Hrec. rewrite start_monitoring_from_fifo_ready by done. cbn zeta.
  unfold opening. by rewrite Hrec.
Qed.

Lemma start_monitoring_from_fifo_nothing_read_example :
  start_monitoring_from_fifo Example.registry 1 (Example.quiet "") 5 Example.fresh
  = (Returns tt, closed (opened (Example.quiet "") Example.fresh),
     [Mkfifo FIFO_PATH 438; Fopen FIFO_PATH "r"; Fread FIFO_PATH 0;
      Perror "fread" ENONE; Fclose FIFO_PATH; Unlink FIFO_PATH]).
Proof.
  exact (start_monitoring_from_fifo_nothing_read Example.registry 1 (Example.quiet "") 5
           Example.fresh (conj eq_refl (or_introl eq_refl)) eq_refl).
Defined.

Lemma join_empties n : join (replicate (S n) "") = commas n.
Proof.
  induction n as [|n IH]; [done|].
  change (replicate (S (S n)) "") with ("" :: "" :: replicate n "")%string.
  rewrite join_cons. change ("" :: replicate n "")%string with (replicate (S n) "")%string.
  rewrite IH. done.
Qed.

Lemma tokenize_commas n : tokenize (commas n) MAX_METRICS = [].
Proof.
  rewrite <- join_empties, tokenize_join.
  - assert (List.filter nonempty (replicate (S n) "") = []) as ->; [|done].
    generalize (S n). intros k. by induction k.
  - apply Forall_replicate. done.
Qed.

(** X12. A payload of commas and nothing else holds no name: the reader
    starts nothing, says nothing, closes and removes the pipe and
    returns. *)
Theorem start_monitoring_from_fifo_only_commas all_metrics SLEEP_TIME os fuel s n :
  channel_ready os s ->
  received os s = commas (S n) ->
  start_monitoring_from_fifo all_metrics SLEEP_TIME os fuel s
  = (Returns tt, closed (opened os s),
     [Mkfifo FIFO_PATH 438; Fopen FIFO_PATH "r"; Fread FIFO_PATH (S n);
      Fclose FIFO_PATH; Unlink FIFO_PATH]).
Proof.
  intros Hready Hrec. rewrite start_monitoring_from_fifo_ready by done. cbn zeta.
  unfold opening. rewrite Hrec, tokenize_commas.
  assert (String.length (commas (S n)) = S n) as ->.
  { generalize (S n). intros k. unfold commas. induction k as [|k IH]; [done|].
    cbn. by rewrite IH. }
  by rewrite bool_decide_eq_true_2 by lia.
Qed.

Lemma start_monitoring_from_fifo_only_commas_example :
  start_monitoring_from_fifo Example.registry 1 (Example.quiet ",,,") 5 Example.fresh
  = (Returns tt, closed (opened (Example.quiet ",,,") Example.fresh),
     [Mkfifo FIFO_PATH 438; Fopen FIFO_PATH "r"; Fread FIFO_PATH 3;
      Fclose FIFO_PATH; Unlink FIFO_PATH]).
Proof.
  exact (start_monitoring_from_fifo_only_commas Example.registry 1 (Example.quiet ",,,") 5
           Example.fresh 2 (conj eq_refl (or_introl eq_refl)) eq_refl).
Defined.

(** X13. From the payload to the end: if one of the names the reader parsed
    is not in the registry, and the first is not the list command, no
    collector ever runs; the reader returns with the stream closed and the
    pipe removed. *)
Theorem start_monitoring_from_fifo_rejects all_metrics SLEEP_TIME os fuel s bad :
  channel_ready os s ->
  bad ∈ tokenize (received os s) MAX_METRICS ->
  registered all_metrics bad = None ->
  head (tokenize (received os s) MAX_METRICS) <> Some "1" ->
  exists s' t0,
    start_monitoring_from_fifo all_metrics SLEEP_TIME os fuel s
    = (Returns tt, s', opening os s ++ t0 ++ closing)
    /\ forallb (fun e => negb (is_update e)) t0 = true
    /\ files s' !! FIFO_PATH = None
    /\ (FIFO_PATH ∉ streams s').
Proof.
  intros Hready Hin Hbad Hfirst.
  rewrite start_monitoring_from_fifo_ready by done. cbn zeta.
  destruct (tokenize (received os s) MAX_METRICS) as [|first toks] eqn:Htoks;
    [by apply elem_of_nil in Hin|].
  rewrite (tokenize_received_nonempty os s first toks Htoks).
  destruct (String.eqb_spec first "1") as [->|_]; [by destruct Hfirst|].
  destruct (start_metrics_monitoring_fails_closed all_metrics SLEEP_TIME os fuel MAX_METRICS
              (first :: toks) bad (opened os s) Hin)
    as (s' & t & -> & Ht & _); [by rewrite scan_registry_registered|].
  destruct (closed_released s'). by exists (closed s'), t.
Qed.

Lemma start_monitoring_from_fifo_rejects_example :
  exists s' t0,
    start_monitoring_from_fifo Example.registry 1 (Example.quiet "cpu, disk") 5 Example.fresh
    = (Returns tt, s', opening (Example.quiet "cpu, disk") Example.fresh ++ t0 ++ closing)
    /\ forallb (fun e => negb (is_update e)) t0 = true
    /\ files s' !! FIFO_PATH = None
    /\ (FIFO_PATH ∉ streams s').
Proof.
  exact (start_monitoring_from_fifo_rejects Example.registry 1 (Example.quiet "cpu, disk") 5
           Example.fresh "disk" (conj eq_refl (or_introl eq_refl))
           ltac:(vm_compute; apply list_elem_of_further, list_elem_of_here)
           eq_refl ltac:(by vm_compute)).
Defined.

(** X14. From the payload to the loop: if every name the reader parsed is in
    the registry, and the first is not the list command, the reader is in
    the monitoring loop for as long as one watches. What came before the
    loop and the state do not depend on how long that is: the loop only
    runs the routines of the names, in the order of the payload, and
    sleeps. The pipe is still there and its stream still open. *)
Theorem start_monitoring_from_fifo_monitors all_metrics SLEEP_TIME os s toks fs :
  channel_ready os s ->
  tokenize (received os s) MAX_METRICS = toks ->
  toks <> [] ->
  head toks <> Some "1" ->
  Forall2 (fun tok f => registered all_metrics tok = Some f) toks fs ->
  exists s' t0,
    (forall fuel,
       start_monitoring_from_fifo all_metrics SLEEP_TIME os fuel s
       = (StillRunning, s', opening os s ++ t0 ++ cycles SLEEP_TIME fuel fs))
    /\ forallb (fun e => negb (is_update e)) t0 = true
    /\ is_Some (files s' !! FIFO_PATH)
    /\ FIFO_PATH ∈ streams s'.
Proof.
  intros Hready Htoks Hne Hfirst Hreg.
  assert (Forall2 (fun tok f => scan_registry tok all_metrics NULL = Some f) toks fs) as Hfs.
  { eapply Forall2_impl; [done|]. intros tok f. by rewrite scan_registry_registered. }
  destruct (create_threads_frame os (opened os s)) as (s1 & t1 & Hct & Hf1 & Hs1 & Ht1).
  destruct (update_status_frame os "Metrics monitoring started" s1)
    as (s2 & t2 & Hst & Hf2 & Hs2 & Ht2).
  destruct (opened_has_channel os s) as [Hnode Hstream].
  exists s2, (InitMetrics toks :: t1 ++ processing toks ++ t2).
  split; [|split; [|split]].
  - intros fuel. rewrite start_monitoring_from_fifo_ready by done. cbn zeta.
    rewrite Htoks. destruct toks as [|first rest]; [done|].
    rewrite (tokenize_received_nonempty os s first rest Htoks).
    destruct (String.eqb_spec first "1") as [->|_]; [by destruct Hfirst|].
    rewrite (start_metrics_monitoring_started all_metrics SLEEP_TIME os fuel MAX_METRICS
               (first :: rest) fs (opened os s) s1 t1 s2 t2 Hfs Hct Hst).
    cbn [app]. by rewrite <- !app_assoc.
  - cbn [forallb is_update negb andb].
    by rewrite !forallb_app, Ht1, Ht2, processing_no_update.
  - by rewrite Hf2, Hf1.
  - by apply Hs2, Hs1.
Qed.

Lemma start_monitoring_from_fifo_monitors_example :
  exists s' t0,
    (forall fuel,
       start_monitoring_from_fifo Example.registry 1 (Example.quiet "memory , cpu") fuel
         Example.fresh
       = (StillRunning, s',
          opening (Example.quiet "memory , cpu") Example.fresh ++ t0
            ++ cycles 1 fuel [2; 1]%nat))
    /\ forallb (fun e => negb (is_update e)) t0 = true
    /\ is_Some (files s' !! FIFO_PATH)
    /\ FIFO_PATH ∈ streams s'.
Proof.
  exact (start_monitoring_from_fifo_monitors Example.registry 1 (Example.quiet "memory , cpu")
           Example.fresh ["memory"; "cpu"] [2; 1]%nat
           (conj eq_refl (or_introl eq_refl)) eq_refl ltac:(done) ltac:(done)
           ltac:(repeat constructor)).
Defined.

(** ** The status file while monitoring *)

(** X15. Once every name is resolved the status file reads "Metrics
    monitoring started", also when the thread of the responder could not be
    created: that failure was written to the status file first and is
    replaced. *)
Theorem start_metrics_monitoring_status all_metrics SLEEP_TIME os fuel n
    (toks : list string) fs s :
  Forall2 (fun tok f => registered all_metrics tok = Some f) toks fs ->
  fopen_fails os STATUS_FILE = false ->
  (forall m, files s !! STATUS_FILE <> Some (Fifo m)) ->
  exists s' t m,
    start_metrics_monitoring all_metrics SLEEP_TIME os fuel (filled n toks) (length toks) s
    = (StillRunning, s', t)
    /\ files s' !! STATUS_FILE
       = Some (Regular m ("Metrics monitoring started" +:+ newline))
    /\ (pthread_create_fails os = true ->
        Fprintf STATUS_FILE ("Error creating HTTP server thread" +:+ newline) ∈ t).
Proof.
  intros Hreg Hf Hs.
  assert (Forall2 (fun tok f => scan_registry tok all_metrics NULL = Some f) toks fs) as Hfs.
  { eapply Forall2_impl; [done|]. intros tok f. by rewrite scan_registry_registered. }
  destruct (create_threads_frame os s) as (s1 & t1 & Hct & _).
  pose proof (create_threads_not_fifo os s s1 t1 Hct Hs) as Hs1.
  pose proof (update_status_written os "Metrics monitoring started" s1 Hf Hs1) as Hst.
  eexists _, _, _. split; [|split].
  - by apply (start_metrics_monitoring_started all_metrics SLEEP_TIME os fuel n toks fs
                s s1 t1 _ _ Hfs Hct Hst).
  - cbn [files]. by rewrite lookup_insert_eq.
  - intros Hp. destruct (create_threads_failed os s Hp) as (s2 & t2 & Hst2 & Hct2).
    rewrite update_status_written in Hst2 by done. injection Hst2 as _ <-.
    rewrite Hct in Hct2. injection Hct2 as _ ->.
    apply list_elem_of_further, list_elem_of_further, list_elem_of_further.
    apply list_elem_of_further, list_elem_of_here.
Qed.

Lemma start_metrics_monitoring_status_example :
  exists s' t m,
    start_metrics_monitoring Example.registry 1 (Example.no_thread "cpu") 2
      (filled MAX_METRICS ["cpu"]) 1 Example.used
    = (StillRunning, s', t)
    /\ files s' !! STATUS_FILE
       = Some (Regular m ("Metrics monitoring started" +:+ newline))
    /\ (pthread_create_fails (Example.no_thread "cpu") = true ->
        Fprintf STATUS_FILE ("Error creating HTTP server thread" +:+ newline) ∈ t).
Proof.
  exact (start_metrics_monitoring_status Example.registry 1 (Example.no_thread "cpu") 2
           MAX_METRICS ["cpu"] [1%nat] Example.used ltac:(repeat constructor) eq_refl
           ltac:(intros m; vm_compute; congruence)).
Defined.

(** ** The branch for a NULL slot *)

Lemma update_status_no_complaint os status s r s' t :
  update_status os status s = (r, s', t) ->
  forallb (fun e => negb (is_null_complaint e)) t = true.
Proof.
  mrun. destruct (fopen_fails os STATUS_FILE); mrun.
  { by intros [= <- <- <-]. }
  change (String.eqb "w" "w") with true. cbv iota.
  destruct (files s !! STATUS_FILE) as [[m|m c]|] eqn:Hs; mrun;
    rewrite ?lookup_insert_eq, ?Hs; mrun; by intros [= <- <- <-].
Qed.

Lemma create_threads_no_complaint os s r s' t :
  create_threads os s = (r, s', t) ->
  forallb (fun e => negb (is_null_complaint e)) t = true.
Proof.
  destruct (pthread_create_fails os) eqn:Hp.
  - destruct (create_threads_failed os s Hp) as (s1 & t1 & Hst & ->).
    intros [= <- <- <-]. cbn [forallb is_null_complaint negb andb].
    rewrite (update_status_no_complaint _ _ _ _ _ _ Hst). done.
  - rewrite create_threads_started by done. by intros [= <- <- <-].
Qed.

Lemma processing_no_complaint names :
  forallb (fun e => negb (is_null_complaint e)) (processing names) = true.
Proof. by induction names as [|x names IH]. Qed.

Lemma cycles_no_complaint SLEEP_TIME n fs :
  forallb (fun e => negb (is_null_complaint e)) (cycles SLEEP_TIME n fs) = true.
Proof.
  apply forallb_forall. intros e Hin%list_elem_of_In.
  apply cycles_events in Hin as [Hu| ->]; [by destruct e|done].
Qed.

Lemma no_update_function_no_complaint bad :
  is_null_complaint (Stderr (no_update_function_message bad +:+ newline)) = false.
Proof. done. Qed.

Lemma string_prefix_app (a b : string) : String.prefix a (a +:+ b) = true.
Proof.
  induction a as [|c a IH]; [by destruct b|].
  rewrite string_app_cons. cbn [String.prefix]. by destruct (ascii_dec c c).
Qed.

Lemma null_complaint_is (i : nat) :
  is_null_complaint
    (Stderr ("Error: update_functions[" +:+ pretty i +:+ "] is NULL" +:+ newline)) = true.
Proof. apply (string_prefix_app "Error: update_functions["). Qed.

(** X16. The branch of the monitoring loop for a NULL slot is never taken
    when the loop is reached through [start_metrics_monitoring]: whatever
    the names, the registry and the surroundings, and however the call ends,
    the complaint about a NULL slot is not written for any index. *)
Theorem start_metrics_monitoring_no_null_slot all_metrics SLEEP_TIME os fuel n
    (toks : list string) s r s' t (i : nat) :
  start_metrics_monitoring all_metrics SLEEP_TIME os fuel (filled n toks) (length toks) s
  = (r, s', t) ->
  Stderr ("Error: update_functions[" +:+ pretty i +:+ "] is NULL" +:+ newline) ∉ t.
Proof.
  intros Hrun Hin.
  assert (forallb (fun e => negb (is_null_complaint e)) t = true) as Ht.
  { destruct (create_threads_frame os s) as (s1 & t1 & Hct & _).
    pose proof (create_threads_no_complaint _ _ _ _ _ Hct) as Ht1.
    destruct (resolve_all_or_first_unresolved all_metrics toks)
      as [[fs Hfs]|(pre & fs & bad & post & -> & Hpre & Hbad)].
    - destruct (update_status_frame os "Metrics monitoring started" s1)
        as (s2 & t2 & Hst & _).
      pose proof (update_status_no_complaint _ _ _ _ _ _ Hst) as Ht2.
      rewrite (start_metrics_monitoring_started all_metrics SLEEP_TIME os fuel n toks fs
                 s s1 t1 s2 t2 Hfs Hct Hst) in Hrun.
      injection Hrun as _ _ <-. cbn [forallb is_null_complaint negb andb].
      by rewrite !forallb_app, Ht1, Ht2, processing_no_complaint, cycles_no_complaint.
    - destruct (update_status_frame os (no_update_function_message bad) s1)
        as (s2 & t2 & Hst & _).
      pose proof (update_status_no_complaint _ _ _ _ _ _ Hst) as Ht2.
      rewrite (start_metrics_monitoring_rejected all_metrics SLEEP_TIME os fuel n pre fs bad
                 post s s1 t1 s2 t2 Hpre Hbad Hct Hst) in Hrun.
      injection Hrun as _ _ <-. cbn [forallb is_null_complaint negb andb].
      rewrite !forallb_app, Ht1, Ht2, processing_no_complaint.
      cbn [forallb andb]. by rewrite no_update_function_no_complaint. }
  rewrite forallb_forall in Ht. apply list_elem_of_In in Hin. apply Ht in Hin.
  by rewrite null_complaint_is in Hin.
Qed.

Lemma start_metrics_monitoring_no_null_slot_example :
  Stderr ("Error: update_functions[" +:+ pretty 0%nat +:+ "] is NULL" +:+ newline)
  ∉ snd (start_metrics_monitoring Example.registry 1 (Example.quiet "cpu") 3
           (filled MAX_METRICS ["cpu"]) 1 Example.fresh).
Proof.
  exact (start_metrics_monitoring_no_null_slot Example.registry 1 (Example.quiet "cpu") 3
           MAX_METRICS ["cpu"] Example.fresh _ _ _ 0%nat eq_refl).
Defined.

(** ** Launching the servers *)

Lemma substring_length_le (s : string) n : (String.length (String.substring 0 n s) <= n)%nat.
Proof.
  revert n. induction s as [|c s IH]; intros [|n]; cbn; try lia.
  specialize (IH n). lia.
Qed.

Lemma snprintf_length size text : (String.length (snprintf size text) <= size - 1)%nat.
Proof. apply substring_length_le. Qed.

Lemma snprintf_fits size text :
  (String.length text < size)%nat -> snprintf size text = text.
Proof. intros Hlen. apply substring_short. lia. Qed.

Lemma WEXITSTATUS_code code signal :
  0 <= code < 256 -> 0 <= signal < 256 -> WEXITSTATUS (256 * code + signal) = code.
Proof.
  intros Hc Hs. unfold WEXITSTATUS.
  rewrite Z.shiftr_land, !Z.shiftr_div_pow2 by lia.
  change (65280 / 2 ^ 8) with (Z.ones 8). rewrite Z.land_ones by lia.
  change (2 ^ 8) with 256.
  replace ((256 * code + signal) / 256) with code by (apply Z.div_unique with signal; lia).
  apply Z.mod_small. lia.
Qed.

(** X17. [run_executable] hands the command to [system] once; its result is
    0 exactly when [system] returned 0 and -1 otherwise, and in that case,
    and only then, it has written one line to the diagnostic stream. *)
Theorem run_executable_result env command :
  fst (run_executable env command) = (if system_status env command =? 0 then 0 else -1)
  /\ List.filter is_system (snd (run_executable env command)) = [System command]
  /\ length (List.filter is_said_stderr (snd (run_executable env command)))
     = (if system_status env command =? 0 then 0%nat else 1%nat).
Proof.
  unfold run_executable.
  destruct (Z.eqb_spec (system_status env command) (-1)) as [->|Hne]; [done|].
  by destruct (Z.eqb_spec (system_status env command) 0).
Qed.

(** X18. The exit code [run_executable] reports is the second byte of the
    status of [system], as [WEXITSTATUS] has it, and nothing of the low
    byte: a command that was ended by a signal, whose status has only the
    low byte set, is reported as failed with exit code 0. *)
Theorem run_executable_exit_code env command code signal :
  0 <= code < 256 -> 0 <= signal < 256 ->
  code <> 0 \/ signal <> 0 ->
  system_status env command = 256 * code + signal ->
  run_executable env command
  = (-1, [System command;
          Said (Stderr ("Command failed with exit code " +:+ pretty code +:+ newline))]).
Proof.
  intros Hc Hs Hnz Hret. unfold run_executable. rewrite Hret.
  destruct (Z.eqb_spec (256 * code + signal) (-1)) as [?|_]; [lia|].
  destruct (Z.eqb_spec (256 * code + signal) 0) as [?|_]; [lia|].
  cbn [negb]. by rewrite WEXITSTATUS_code.
Qed.

(** A command ended by signal 9. *)
Lemma run_executable_exit_code_example :
  run_executable
    {| passwd_dir := None; HOME := None; system_status := fun _ => 9; system_errno := ENONE |}
    "./monitor"
  = (-1, [System "./monitor";
          Said (Stderr ("Command failed with exit code 0" +:+ newline))]).
Proof.
  exact (run_executable_exit_code
           {| passwd_dir := None; HOME := None; system_status := fun _ => 9;
              system_errno := ENONE |}
           "./monitor" 0 9 ltac:(lia) ltac:(lia) ltac:(right; lia) eq_refl).
Defined.

(** X19. [start_grafana] launches nothing when the user has no entry in the
    password database. Otherwise it hands one command to [system]: the
    command line of Grafana under the home directory, cut to what the
    buffer of [COMMAND_SIZE] bytes holds, and the whole of it when it is
    shorter than the buffer. It then reports a success unless [system]
    returned [RETURN_ERROR]. *)
Theorem start_grafana_launch COMMAND_SIZE RETURN_ERROR env :
  match passwd_dir env with
  | None =>
      List.filter is_system (start_grafana COMMAND_SIZE RETURN_ERROR env) = []
      /\ forallb is_said_stderr (start_grafana COMMAND_SIZE RETURN_ERROR env) = true
  | Some home_dir =>
      exists command verdict,
        start_grafana COMMAND_SIZE RETURN_ERROR env = [System command; Said verdict]
        /\ command = String.substring 0 (COMMAND_SIZE - 1) (grafana_command home_dir)
        /\ (String.length command <= COMMAND_SIZE - 1)%nat
        /\ ((String.length (grafana_command home_dir) < COMMAND_SIZE)%nat ->
            command = grafana_command home_dir)
        /\ verdict
           = (if system_status env command =? RETURN_ERROR
              then Stderr ("Failed to start Grafana" +:+ newline)
              else Stdout ("Grafana started successfully" +:+ newline))
  end.
Proof.
  unfold start_grafana, get_home_directory.
  destruct (passwd_dir env) as [home_dir|]; [|done].
  exists (snprintf COMMAND_SIZE (grafana_command home_dir)),
    (if system_status env (snprintf COMMAND_SIZE (grafana_command home_dir)) =? RETURN_ERROR
     then Stderr ("Failed to start Grafana" +:+ newline)
     else Stdout ("Grafana started successfully" +:+ newline)).
  split.
  { by destruct (system_status env _ =? RETURN_ERROR). }
  split; [done|]. split; [apply snprintf_length|]. split; [apply snprintf_fits|done].
Qed.

Lemma prometheus_config_shorter home_dir :
  (String.length (prometheus_config home_dir)
   < String.length (prometheus_command home_dir (prometheus_config home_dir)))%nat.
Proof.
  unfold prometheus_command, prometheus_config. rewrite !string_length_app. cbn. lia.
Qed.

(** X20. [start_prometheus] launches nothing when HOME is not set. Otherwise
    it hands one command to [system] and says nothing, whatever [system]
    returns: the command is never longer than the buffer of [COMMAND_SIZE]
    bytes holds, and it is the command line of Prometheus with its
    configuration file under HOME when that line is shorter than the
    buffer; the path of the configuration then fits its own buffer too. *)
Theorem start_prometheus_launch COMMAND_SIZE env :
  match HOME env with
  | None =>
      List.filter is_system (start_prometheus COMMAND_SIZE env) = []
      /\ forallb is_said_stderr (start_prometheus COMMAND_SIZE env) = true
  | Some home_dir =>
      exists command,
        start_prometheus COMMAND_SIZE env = [System command]
        /\ (String.length command <= COMMAND_SIZE - 1)%nat
        /\ ((String.length (prometheus_command home_dir (prometheus_config home_dir))
             < COMMAND_SIZE)%nat ->
            command = prometheus_command home_dir (prometheus_config home_dir))
  end.
Proof.
  unfold start_prometheus. destruct (HOME env) as [home_dir|]; [|done].
  eexists. split; [done|]. split; [apply snprintf_length|].
  intros Hfits. pose proof (prometheus_config_shorter home_dir) as Hshort.
  rewrite (snprintf_fits _ (prometheus_config home_dir)) by lia.
  by apply snprintf_fits.
Qed.
